(** * HTTPfs: the HTTP-to-filesystem translation layer of [parser.py]

    A shallow embedding of the two classes of [parser.py], [Directory] and
    [File], and the properties of listing parsing, metadata resolution and
    block-cached reads.

    Python integers are unbounded: they are [Z], with [//] as [Z.div] and [%]
    as [Z.modulo] (both floor, as in Python, for the positive divisors used
    here).  [bytes] values are [list byte]; text is a [string] that holds its
    UTF-8 encoding, so a character outside ASCII takes two or more bytes, none
    of which is an ASCII byte.  Dictionaries are stdpp [gmap]s.  Exceptions and the mutation of the shared objects are
    threaded by a small state-and-error monad. *)

From Stdlib Require Import ZArith List Ascii String Lia Bool DecimalString.
From Stdlib.Strings Require Import Byte.
From stdpp Require Import gmap strings list fin_maps.

Local Open Scope string_scope.
Local Open Scope list_scope.
Local Open Scope Z_scope.

(** ** Python values used by the code *)

Module Py.

(** Exceptions the code can raise, by Python class.  [FuseOSError] carries
    its errno. *)
Inductive exn : Type :=
| TypeError
| KeyError
| IndexError
| AttributeError
| ValueError
| FuseOSError (errno : Z).

Definition EIO : Z := 5.
Definition ENOENT : Z := 2.

(** The class name of an exception, as [type(e).__name__] gives it. *)
Definition class_name (e : exn) : string :=
  match e with
  | TypeError => "TypeError"
  | KeyError => "KeyError"
  | IndexError => "IndexError"
  | AttributeError => "AttributeError"
  | ValueError => "ValueError"
  | FuseOSError _ => "FuseOSError"
  end.

Inductive result (A : Type) : Type :=
| Ok (a : A)
| Raise (e : exn).
Arguments Ok {A} a.
Arguments Raise {A} e.

Definition result_map {A B : Type} (f : A -> B) (r : result A) : result B :=
  match r with
  | Ok a => Ok (f a)
  | Raise e => Raise e
  end.

(** [l[i:j]] for a sequence and two integers: negative indices count from
    the end, and both are clamped to the sequence. *)
Definition clamp_index (len i : Z) : Z :=
  if i <? 0 then Z.max 0 (i + len) else Z.min i len.

Definition slice {A : Type} (l : list A) (i j : Z) : list A :=
  let len := Z.of_nat (List.length l) in
  let lo := clamp_index len i in
  let hi := clamp_index len j in
  firstn (Z.to_nat (hi - lo)) (skipn (Z.to_nat lo) l).

(** [s.split(c)] for a one-character separator: never the empty list. *)
Fixpoint split (c : ascii) (s : string) : list string :=
  match s with
  | EmptyString => [EmptyString]
  | String a rest =>
      if Ascii.eqb a c then EmptyString :: split c rest
      else match split c rest with
           | [] => [String a EmptyString]
           | w :: ws => String a w :: ws
           end
  end.

(** [c.join(l)]. *)
Fixpoint join (c : string) (l : list string) : string :=
  match l with
  | [] => EmptyString
  | [w] => w
  | w :: ws => w +:+ c +:+ join c ws
  end.

(** [l[:-1]] and [l[-1]]. *)
Definition but_last {A : Type} (l : list A) : list A := removelast l.

(** [s.lstrip(c)], [s.rstrip(c)] and [s.strip(c)] for a set of characters
    given by a predicate. *)
Fixpoint lstrip (p : ascii -> bool) (s : string) : string :=
  match s with
  | EmptyString => EmptyString
  | String a rest => if p a then lstrip p rest else s
  end.

Fixpoint rstrip (p : ascii -> bool) (s : string) : string :=
  match s with
  | EmptyString => EmptyString
  | String a rest =>
      match rstrip p rest with
      | EmptyString => if p a then EmptyString else String a EmptyString
      | r => String a r
      end
  end.

Definition strip (p : ascii -> bool) (s : string) : string :=
  lstrip p (rstrip p s).

Definition is_slash (a : ascii) : bool := Ascii.eqb a "/"%char.

(** [str.strip()] without argument removes the Unicode white space from
    both ends.  In UTF-8 the white space of one byte is U+0009 to U+000D and
    U+001C to U+0020; *)
Definition is_space (a : ascii) : bool :=
  let n := nat_of_ascii a in
  ((9 <=? n) && (n <=? 13) || (28 <=? n) && (n <=? 32))%nat.

Definition byte_eqb (a : ascii) (n : nat) : bool := Nat.eqb (nat_of_ascii a) n.

(** of two bytes, U+0085 and U+00A0 (the no-break space); *)
Definition is_space2 (a b : ascii) : bool :=
  (byte_eqb a 0xC2 && (byte_eqb b 0x85 || byte_eqb b 0xA0))%nat.

(** of three bytes, U+1680, U+2000 to U+200A, U+2028, U+2029, U+202F, U+205F
    and U+3000. *)
Definition is_space3 (a b c : ascii) : bool :=
  let n := nat_of_ascii c in
  (byte_eqb a 0xE1 && byte_eqb b 0x9A && byte_eqb c 0x80
   || byte_eqb a 0xE2 && byte_eqb b 0x80 &&
      ((0x80 <=? n) && (n <=? 0x8A) || (n =? 0xA8) || (n =? 0xA9) || (n =? 0xAF))
   || byte_eqb a 0xE2 && byte_eqb b 0x81 && byte_eqb c 0x9F
   || byte_eqb a 0xE3 && byte_eqb b 0x80 && byte_eqb c 0x80)%nat.

(** The white space at the start of a text is removed character by
    character; [sp2] and [sp3] recognise the characters of two and three
    bytes in the order the bytes are met. *)
Fixpoint lstrip_space_by (sp2 : ascii -> ascii -> bool)
    (sp3 : ascii -> ascii -> ascii -> bool) (s : string) : string :=
  match s with
  | EmptyString => s
  | String a r =>
      if is_space a then lstrip_space_by sp2 sp3 r
      else match r with
           | EmptyString => s
           | String b r' =>
               if sp2 a b then lstrip_space_by sp2 sp3 r'
               else match r' with
                    | EmptyString => s
                    | String c r'' =>
                        if sp3 a b c then lstrip_space_by sp2 sp3 r'' else s
                    end
           end
  end.

Fixpoint reverse_onto (s acc : string) : string :=
  match s with
  | EmptyString => acc
  | String a r => reverse_onto r (String a acc)
  end.

Definition reverse (s : string) : string := reverse_onto s EmptyString.

Definition lstrip_space (s : string) : string :=
  lstrip_space_by is_space2 is_space3 s.

(** At the end of a text the bytes of a character are met last byte
    first. *)
Definition rstrip_space (s : string) : string :=
  reverse (lstrip_space_by (fun a b => is_space2 b a)
                           (fun a b c => is_space3 c b a) (reverse s)).

(** [s.strip()]. *)
Definition strip_space (s : string) : string := lstrip_space (rstrip_space s).

(** [needle in hay] on text. *)
Fixpoint contains (needle hay : string) : bool :=
  String.prefix needle hay ||
  match hay with
  | EmptyString => false
  | String _ rest => contains needle rest
  end.

End Py.

Import Py.

(** ** Block arithmetic of [File.read] (lines 99-101) *)

Definition mb_start (offset : Z) : Z := (offset / 1024) / 1024.
Definition mb_end (offset length : Z) : Z := ((offset + length) / 1024) / 1024.
Definition offset_from_mb (offset : Z) : Z :=
  (((offset / 1024) mod 1024) * 1024) + (offset mod 1024).

(** The block size the specification names: 1 MiB. *)
Definition blockSize : Z := 1048576.

(** ** The HTTP session

    [requests.Session] is outside the program.  A request is recorded in the
    trace of the session and answered by the environment; the answer may
    depend on everything sent before (the remote server is not assumed to be
    stable). *)

Inductive method : Type := GET | HEAD.

Record request : Type := Request {
  req_method : method;
  req_url : string;
  req_headers : list (string * string)
}.

Record response : Type := Response {
  status_code : Z;
  headers : list (string * string);
  text : string;
  content : list byte
}.

Definition lower_ascii (a : ascii) : ascii :=
  let n := nat_of_ascii a in
  if ((65 <=? n) && (n <=? 90))%nat then ascii_of_nat (n + 32) else a.

Fixpoint lower (s : string) : string :=
  match s with
  | EmptyString => EmptyString
  | String a rest => String (lower_ascii a) (lower rest)
  end.

(** [r.headers[key]]: the header mapping of [requests] ignores case.
    [None] stands for [KeyError]. *)
Fixpoint header_lookup (key : string) (hs : list (string * string)) : option string :=
  match hs with
  | [] => None
  | (k, v) :: rest =>
      if String.eqb (lower k) (lower key) then Some v else header_lookup key rest
  end.

(** ** The parsed page

    [BeautifulSoup(text, 'html.parser')] is outside the program too; the code
    only navigates the tree it returns. *)

#[warnings="-register-all"] Inductive node : Type :=
| NavigableString (s : string)
| Tag (name : string) (attrs : list (string * string)) (children : list node).

(** All elements below a node, in document order. *)
Fixpoint descendants (n : node) : list node :=
  match n with
  | NavigableString _ => []
  | Tag _ _ cs => flat_map (fun c => c :: descendants c) cs
  end.

Definition is_tag (nm : string) (n : node) : bool :=
  match n with
  | Tag nm' _ _ => String.eqb nm' nm
  | NavigableString _ => false
  end.

(** [n.find_all(nm)]. *)
Definition find_all (nm : string) (n : node) : list node :=
  List.filter (is_tag nm) (descendants n).

(** [n.nm], the first element of that name below [n], or Python's [None]. *)
Definition find (nm : string) (n : node) : option node :=
  List.hd_error (find_all nm n).

Fixpoint attr_lookup (key : string) (l : list (string * string)) : option string :=
  match l with
  | [] => None
  | (k, v) :: rest => if String.eqb k key then Some v else attr_lookup key rest
  end.

(** [o[key]] where [o] is an element or [None]. *)
Definition subscript (o : option node) (key : string) : result string :=
  match o with
  | Some (Tag _ attrs _) =>
      match attr_lookup key attrs with
      | Some v => Ok v
      | None => Raise KeyError
      end
  | Some (NavigableString _) => Raise TypeError
  | None => Raise TypeError
  end.

(** [n.string]: the text of an element that has a single child, through
    nested single children. *)
Fixpoint tag_string (n : node) : option string :=
  match n with
  | NavigableString s => Some s
  | Tag _ _ [c] => tag_string c
  | Tag _ _ _ => None
  end.

(** ** The environment of the program *)

Class Env (timestamp : Type) : Type := {
  (** the answer of the session to a request, given the requests sent before *)
  session_send : list request -> request -> response;
  (** [BeautifulSoup(text, 'html.parser')] *)
  BeautifulSoup : string -> node;
  (** [time.mktime(datetime.strptime(s, fmt).timetuple())]; [None] when
      [strptime] raises [ValueError] *)
  mktime_strptime : string -> string -> option timestamp;
  (** [int(s)]; [None] when it raises [ValueError] *)
  int_of_str : string -> option Z
}.

(** ** State and exceptions

    The state is the trace of the requests sent on the session, oldest first,
    and the one mutable object the method at hand updates. *)

Record state (T : Type) : Type := State {
  trace : list request;
  obj : T
}.
Arguments State {T} trace obj.
Arguments trace {T} s.
Arguments obj {T} s.

Definition M (T A : Type) : Type := state T -> result A * state T.

Definition ret {T A : Type} (a : A) : M T A := fun s => (Ok a, s).

Definition raise {T A : Type} (e : exn) : M T A := fun s => (Raise e, s).

Definition bind {T A B : Type} (c : M T A) (k : A -> M T B) : M T B :=
  fun s =>
    match c s with
    | (Ok a, s') => k a s'
    | (Raise e, s') => (Raise e, s')
    end.

Definition lift {T A : Type} (r : result A) : M T A := fun s => (r, s).

Definition get_obj {T : Type} : M T T := fun s => (Ok (obj s), s).

Definition put_obj {T : Type} (t : T) : M T unit :=
  fun s => (Ok tt, State (trace s) t).

(** Pure code that may raise. *)
Definition rbind {A B : Type} (r : result A) (k : A -> result B) : result B :=
  match r with
  | Ok a => k a
  | Raise e => Raise e
  end.

Declare Scope py_scope.
Delimit Scope py_scope with py.
Notation "x <~ c ;; k" := (bind c (fun x => k))
  (at level 100, c at next level, right associativity) : py_scope.
Notation "c ;;; k" := (bind c (fun _ => k))
  (at level 100, right associativity) : py_scope.
Notation "x <~? r ;; k" := (rbind r (fun x => k))
  (at level 100, r at next level, right associativity) : py_scope.
Local Open Scope py_scope.

Section Session.

Context {timestamp : Type} `{E : Env timestamp}.

(** [self.session.get(url, headers=hs)] and
    [self.session.head(url, allow_redirects=True)]; following redirects is
    the session's business, the answer is the final one. *)
Definition session_request {T : Type} (rq : request) : M T response :=
  fun s => (Ok (session_send (trace s) rq), State (trace s ++ [rq]) (obj s)).

Definition session_get {T : Type} (url : string) (hs : list (string * string)) : M T response :=
  session_request (Request GET url hs).

Definition session_head {T : Type} (url : string) : M T response :=
  session_request (Request HEAD url []).

End Session.

(** ** [Directory.contents] (lines 21-39) *)

Module Directory.

Section Directory.

Context {timestamp : Type} `{E : Env timestamp}.

Definition entry : Type := string * bool.

(** [x.find_all('td')[i]]. *)
Definition nth_td (x : node) (i : nat) : result node :=
  match nth_error (find_all "td" x) i with
  | Some td => Ok td
  | None => Raise IndexError
  end.

(** [td.a.string], before a method of the text is called: [None] is kept. *)
Definition anchor_string (td : node) : result (option string) :=
  match find "a" td with
  | Some a => Ok (tag_string a)
  | None => Raise AttributeError
  end.

(** The test of lines 35 and 80:
    [x.td is not None and x.td.img['alt'] != "[PARENTDIR]"]. *)
Definition row_selected (x : node) : result bool :=
  match find "td" x with
  | None => Ok false
  | Some td =>
      alt <~? subscript (find "img" td) "alt" ;;
      Ok (negb (String.eqb alt "[PARENTDIR]"))
  end.

(** Lines 36-37: the entry appended for a selected row. *)
Definition row_entry (x : node) : result entry :=
  alt <~? subscript (match find "td" x with
                     | Some td => find "img" td
                     | None => None
                     end) "alt" ;;
  let is_dir := String.eqb alt "[DIR]" in
  td1 <~? nth_td x 1 ;;
  os <~? anchor_string td1 ;;
  match os with
  | Some s => Ok (strip is_slash s, is_dir)
  | None => Raise AttributeError
  end.

(** The loop of lines 34-37 over the rows still to visit. *)
Fixpoint contents_loop (rows : list node) (contents : list entry) : result (list entry) :=
  match rows with
  | [] => Ok contents
  | x :: rest =>
      sel <~? row_selected x ;;
      if sel then
        e <~? row_entry x ;;
        contents_loop rest (contents ++ [e])
      else contents_loop rest contents
  end.

(** Lines 27 and 34-39, on the parsed page. *)
Definition contents_of_soup (parsed : node) : result (list entry) :=
  contents_loop (find_all "tr" parsed) [(".", true); ("..", true)].

Definition listing_url (root path : string) : string :=
  root +:+ "/" +:+ path +:+ "/".

Definition contents {T : Type} (root path : string) : M T (list entry) :=
  response <~ session_get (listing_url root path) [] ;;
  lift (contents_of_soup (BeautifulSoup (text response))).

End Directory.

End Directory.

(** ** [File] (lines 42-133) *)

Module File.

(** [httpfs.readdir_cache]: directory path to its listing. *)
Abbreviation readdir_cache := (gmap string (list Directory.entry)).

(** [self.readbuffer], a [defaultdict(lambda: None)]: block index to block
    content; a stored Python [None] is the inner [None]. *)
Abbreviation readbuffer := (gmap Z (option (list byte))).

Section File.

Context {timestamp : Type} `{E : Env timestamp}.

(** The attributes of a [File] object that stay fixed once [__init__] is
    over.  [mtime] is [None] both for Python's [None] and when [__init__]
    leaves the attribute unassigned (a probe that is not 200).  The block
    cache [self.readbuffer] is the mutable object of [read]. *)
Record t : Type := Build {
  root : string;
  path : string;
  dirmtime : bool;
  is_dir : bool;
  url : string;
  r : response;
  size : Z;
  mtime : option timestamp
}.

(** Lines 79-83: one row of the listing in the fallback for [mtime]. *)
Definition mtime_row (filename : string) (x : node) (mtime : option timestamp)
  : result (option timestamp) :=
  sel <~? Directory.row_selected x ;;
  if sel then
    td1 <~? Directory.nth_td x 1 ;;
    os <~? Directory.anchor_string td1 ;;
    match os with
    | None => Raise TypeError
    | Some s =>
        if contains filename s then
          td2 <~? Directory.nth_td x 2 ;;
          match tag_string td2 with
          | None => Raise AttributeError
          | Some ts =>
              match mktime_strptime (strip_space ts) "%Y-%m-%d %H:%M" with
              | Some tm => Ok (Some tm)
              | None => Raise ValueError
              end
          end
        else Ok mtime
    end
  else Ok mtime.

Fixpoint mtime_loop (filename : string) (rows : list node) (mtime : option timestamp)
  : result (option timestamp) :=
  match rows with
  | [] => Ok mtime
  | x :: rest =>
      m <~? mtime_row filename x mtime ;;
      mtime_loop filename rest m
  end.

(** Lines 77-83. *)
Definition mtime_from_listing {T : Type} (root parent_dir filename : string)
  : M T (option timestamp) :=
  response <~ session_get (Directory.listing_url root parent_dir) [] ;;
  lift (mtime_loop filename (find_all "tr" (BeautifulSoup (text response))) None).

(** Lines 65-68. *)
Definition size_of_headers (hs : list (string * string)) : result Z :=
  match header_lookup "Content-Length" hs with
  | Some v =>
      match int_of_str v with
      | Some n => Ok n
      | None => Raise ValueError
      end
  | None => Ok 0
  end.

(** Lines 70-74; [now] is what [time.time()] returns. *)
Definition mtime_of_headers (now : timestamp) (is_dir dirmtime : bool)
    (hs : list (string * string)) : result (option timestamp) :=
  match header_lookup "Last-Modified" hs with
  | Some mtime_string =>
      match mktime_strptime mtime_string "%a, %d %b %Y %H:%M:%S %Z" with
      | Some tm => Ok (Some tm)
      | None => Raise ValueError
      end
  | None => Ok (if is_dir && dirmtime then None else Some now)
  end.

Definition parent_dir_of (path : string) : string :=
  join "/" (but_last (split "/"%char path)).

Definition filename_of (path : string) : string :=
  List.last (split "/"%char path) "".

(** Lines 55-56. *)
Definition populate (root parent_dir : string) : M readdir_cache unit :=
  cache <~ get_obj ;;
  match cache !! parent_dir with
  | Some _ => ret tt
  | None =>
      c <~ Directory.contents root parent_dir ;;
      cache' <~ get_obj ;;
      put_obj (<[parent_dir := c]> cache')
  end.

(** Lines 58-59. *)
Definition is_dir_in (listing : list Directory.entry) (filename : string) : bool :=
  let dirs := List.map fst (List.filter snd listing) in
  existsb (String.eqb filename) dirs || String.eqb filename "".

(** Lines 58-86, with the listing of the parent in the cache. *)
Definition probe (now : timestamp) (root path : string) (dirmtime : bool)
  : M readdir_cache t :=
  let parent_dir := parent_dir_of path in
  let filename := filename_of path in
  cache <~ get_obj ;;
  listing <~ lift (match cache !! parent_dir with
                   | Some l => Ok l
                   | None => Raise KeyError
                   end) ;;
  let is_dir := is_dir_in listing filename in
  let url := root +:+ "/" +:+ path +:+ (if is_dir then "/" else "") in
  r <~ session_head url ;;
  if status_code r =? 200 then
    size <~ lift (size_of_headers (headers r)) ;;
    mtime <~ lift (mtime_of_headers now is_dir dirmtime (headers r)) ;;
    mtime' <~ match mtime with
              | None => mtime_from_listing root parent_dir filename
              | Some _ => ret mtime
              end ;;
    ret (Build root path dirmtime is_dir url r size mtime')
  else
    ret (Build root path dirmtime is_dir url r 0 None).

(** [File.__init__] (lines 43-86); the mutable object is
    [httpfs.readdir_cache]. *)
Definition init (now : timestamp) (root path : string) (dirmtime : bool)
  : M readdir_cache t :=
  populate root (parent_dir_of path) ;;;
  probe now root path dirmtime.

(** [str(n)] as [format] writes an integer. *)
Definition str_of_int (n : Z) : string := NilZero.string_of_int (Z.to_int n).

(** [u'{}-{}'.format(lo, hi)] behind ['bytes=']. *)
Definition range_header (lo hi : Z) : list (string * string) :=
  [("range", "bytes=" +:+ str_of_int lo +:+ "-" +:+ str_of_int hi)].

(** [self.readbuffer[k]] on the [defaultdict]: a missing key is inserted
    with [None]. *)
Definition readbuffer_get (k : Z) : M readbuffer (option (list byte)) :=
  rb <~ get_obj ;;
  match rb !! k with
  | Some v => ret v
  | None => put_obj (<[k := None]> rb) ;;; ret None
  end.

Definition readbuffer_set (k : Z) (v : list byte) : M readbuffer unit :=
  rb <~ get_obj ;;
  put_obj (<[k := Some v]> rb).

(** Lines 105-117: fill the buffer for one block. *)
Definition fill (self : t) (mb : Z) : M readbuffer unit :=
  b <~ readbuffer_get mb ;;
  match b with
  | Some _ => ret tt
  | None =>
      let url := root self +:+ "/" +:+ path self in
      r <~ session_get url (range_header (mb * 1024 * 1024)
                                         ((mb * 1024 * 1024) + (1023 * 1024))) ;;
      if (status_code r =? 200) || (status_code r =? 206) then
        readbuffer_set mb (content r) ;;;
        readbuffer_get mb ;;;
        ret tt
      else raise (FuseOSError EIO)
  end.

(** [File.read] (lines 88-133); the mutable object is [self.readbuffer].
    The arguments of the logging calls are evaluated, so the buffer is read
    for the message of line 104. *)
Definition read (self : t) (length offset : Z) : M readbuffer (list byte) :=
  let url := root self +:+ "/" +:+ path self in
  let mb_start := mb_start offset in
  let mb_end := mb_end offset length in
  let offset_from_mb := offset_from_mb offset in
  if mb_start =? mb_end then
    readbuffer_get mb_start ;;;
    fill self mb_start ;;;
    b <~ readbuffer_get mb_start ;;
    match b with
    | Some block => ret (slice block offset_from_mb (offset_from_mb + length))
    | None => raise TypeError
    end
  else
    r' <~ session_get url (range_header offset
                                        (Z.min (size self) (offset + length - 1))) ;;
    if (status_code (r self) =? 200) || (status_code r' =? 206) then
      ret (content r')
    else raise (FuseOSError EIO).

(** The values of the dictionary [attributes] returns: integers, and the
    time stamp, which may be Python's [None]. *)
Inductive value : Type :=
| VInt (n : Z)
| VTime (tm : option timestamp).

(** [stat.S_IFDIR] and [stat.S_IFREG] (octal 040000 and 0100000). *)
Definition S_IFDIR : Z := 0x4000.
Definition S_IFREG : Z := 0x8000.

(** [File.attributes] (lines 135-153); the permission bits are octal 777 and
    666. *)
Definition attributes (self : t) : result (gmap string value) :=
  if negb (status_code (r self) =? 200) then Raise (FuseOSError ENOENT)
  else
    let mode := if is_dir self then Z.lor S_IFDIR 0x1ff else Z.lor S_IFREG 0x1b6 in
    let attrs : gmap string value :=
      <["st_size" := VInt (size self)]>
        (<["st_mtime" := VTime (mtime self)]>
           (<["st_mode" := VInt mode]>
              (<["st_atime" := VTime (mtime self)]> ∅))) in
    if is_dir self then Ok (<["st_nlink" := VInt 2]> attrs) else Ok attrs.

End File.

End File.

(** ** Vocabulary of the properties *)

Section Vocabulary.

Context {timestamp : Type} `{E : Env timestamp}.

(** The request [File.read] sends to fill block [mb] (lines 107-110). *)
Definition block_request (self : @File.t timestamp) (mb : Z) : request :=
  Request GET (File.root self +:+ "/" +:+ File.path self)
    (File.range_header (mb * 1024 * 1024) ((mb * 1024 * 1024) + (1023 * 1024))).

(** The request of a read that spans blocks (lines 125-128). *)
Definition span_request (self : @File.t timestamp) (length offset : Z) : request :=
  Request GET (File.root self +:+ "/" +:+ File.path self)
    (File.range_header offset (Z.min (File.size self) (offset + length - 1))).

(** The statuses the reads take for a success. *)
Definition success (status : Z) : bool := (status =? 200) || (status =? 206).

(** The content the block cache holds for a block, if any. *)
Definition cached (rb : File.readbuffer) (mb : Z) : option (list byte) :=
  match rb !! mb with
  | Some (Some block) => Some block
  | _ => None
  end.

(** The state of a handle after a sequence of reads, each given by its
    length and offset; a read that raises leaves the state it reached. *)
Definition run_reads (self : @File.t timestamp) (reads : list (Z * Z))
    (st : state File.readbuffer) : state File.readbuffer :=
  fold_left (fun s c => snd (File.read self (fst c) (snd c) s)) reads st.

(** *** Rows of a listing page *)

(** What is wrong with a row for [Directory.contents], as the exception the
    row makes it raise; [None] for a row it accepts: a row without a cell, a
    [[PARENTDIR]] row, or a row with an icon that has an alternate text and a
    second cell whose first link holds one text. *)
Definition row_defect (x : node) : option exn :=
  match find "td" x with
  | None => None
  | Some td =>
      match find "img" td with
      | None => Some TypeError
      | Some (NavigableString _) => Some TypeError
      | Some (Tag _ attrs _) =>
          match attr_lookup "alt" attrs with
          | None => Some KeyError
          | Some alt =>
              if String.eqb alt "[PARENTDIR]" then None
              else match nth_error (find_all "td" x) 1 with
                   | None => Some IndexError
                   | Some td1 =>
                       match find "a" td1 with
                       | None => Some AttributeError
                       | Some a =>
                           match tag_string a with
                           | None => Some AttributeError
                           | Some _ => None
                           end
                       end
                   end
          end
      end
  end.

(** The first defect of a page, in the order of its rows. *)
Definition first_defect (rows : list node) : option exn :=
  List.hd_error (omap row_defect rows).

(** The alternate text of the icon of a row: of the first image of its first
    cell. *)
Definition row_alt (x : node) : option string :=
  match find "td" x with
  | Some td =>
      match find "img" td with
      | Some (Tag _ attrs _) => attr_lookup "alt" attrs
      | _ => None
      end
  | None => None
  end.

(** The link text of a row: the text of the first link of its second cell. *)
Definition row_link_text (x : node) : option string :=
  match nth_error (find_all "td" x) 1 with
  | Some td1 =>
      match find "a" td1 with
      | Some a => tag_string a
      | None => None
      end
  | None => None
  end.

(** The rows that are listed: those with an icon whose alternate text is not
    [[PARENTDIR]]. *)
Definition listed (x : node) : bool :=
  match row_alt x with
  | Some alt => negb (String.eqb alt "[PARENTDIR]")
  | None => false
  end.

(** The entry of a listed row: the link text without its trailing
    separators, flagged as a directory when the icon says [[DIR]]. *)
Definition entry_of (x : node) : Directory.entry :=
  (rstrip is_slash (default "" (row_link_text x)),
   match row_alt x with
   | Some alt => String.eqb alt "[DIR]"
   | None => false
   end).

(** A name of the index: once the trailing separators are off, it does not
    start with a separator. *)
Definition is_name (s : string) : bool :=
  match rstrip is_slash s with
  | EmptyString => true
  | String a _ => negb (is_slash a)
  end.

(** A well-formed index page: no row has a defect, and the link text of
    every listed row is a name. *)
Definition well_formed_row (x : node) : bool :=
  match row_defect x with
  | Some _ => false
  | None => negb (listed x) || is_name (default "" (row_link_text x))
  end.

Definition well_formed (parsed : node) : bool :=
  forallb well_formed_row (find_all "tr" parsed).

(** The class names of the exceptions Python raises by itself on a defective
    row. *)
Definition builtin_classes : list string :=
  ["TypeError"; "KeyError"; "IndexError"; "AttributeError"].

(** *** The time stamps of a listing page *)

(** A row of the listing matches a file name when it is listed and its link
    text contains the name. *)
Definition row_matches (filename : string) (x : node) : bool :=
  listed x &&
  match row_link_text x with
  | Some s => contains filename s
  | None => false
  end.

(** The time stamp of a row: its third cell, read as [YYYY-MM-DD HH:MM]. *)
Definition row_time (x : node) : option timestamp :=
  match nth_error (find_all "td" x) 2 with
  | Some td2 =>
      match tag_string td2 with
      | Some ts => mktime_strptime (strip_space ts) "%Y-%m-%d %H:%M"
      | None => None
      end
  | None => None
  end.

(** The time stamp the listing gives for a name: that of the last row that
    matches it. *)
Definition listed_mtime (filename : string) (rows : list node) : option timestamp :=
  match last (List.filter (row_matches filename) rows) with
  | Some x => row_time x
  | None => None
  end.

(** *** Sessions of [File.__init__] calls *)

(** The request of the probe (line 63). *)
Definition probe_request (root path : string) (is_dir : bool) : request :=
  Request HEAD (root +:+ "/" +:+ path +:+ (if is_dir then "/" else "")) [].

(** The request for the listing page of a directory (lines 30 and 77). *)
Definition listing_request (root p : string) : request :=
  Request GET (Directory.listing_url root p) [].

(** The state after a sequence of calls [File(root, path, ...)], each with
    its clock reading, path and [dirmtime]; a call that raises leaves the
    state it reached. *)
Definition run_inits (root : string) (calls : list (timestamp * string * bool))
    (st : state File.readdir_cache) : state File.readdir_cache :=
  fold_left (fun s c => snd (File.init (fst (fst c)) root (snd (fst c)) (snd c) s))
            calls st.

Definition is_listing_get (root p : string) (rq : request) : bool :=
  match req_method rq with
  | GET => String.eqb (req_url rq) (Directory.listing_url root p)
  | HEAD => false
  end.

(** The number of GETs of the listing page of [p] in a trace. *)
Definition listing_gets (root p : string) (tr : list request) : nat :=
  List.length (List.filter (is_listing_get root p) tr).

(** The calls of a sequence that can fetch the page of [p] again: those with
    [dirmtime] on a path whose parent is [p]. *)
Definition refetching (p : string) (c : timestamp * string * bool) : bool :=
  snd c && String.eqb (File.parent_dir_of (snd (fst c))) p.

End Vocabulary.


(** *** Further vocabulary: names and entries *)

(** The first and the last character of a text, tested by a predicate. *)
Definition starts_with (p : ascii -> bool) (s : string) : bool :=
  match s with
  | EmptyString => false
  | String a _ => p a
  end.

Fixpoint ends_with (p : ascii -> bool) (s : string) : bool :=
  match s with
  | EmptyString => false
  | String a EmptyString => p a
  | String _ rest => ends_with p rest
  end.

(** A text without any separator. *)
Fixpoint no_separator (s : string) : bool :=
  match s with
  | EmptyString => true
  | String a rest => negb (is_slash a) && no_separator rest
  end.

(** The entry of a listed row as [Directory.contents] builds it on any page:
    the separators are taken off both ends of the link text. *)
Definition entry_stripped (x : node) : Directory.entry :=
  (strip is_slash (default "" (row_link_text x)), snd (entry_of x)).

(** A cache all of whose listings start with the two dot entries. *)
Definition dotted (cache : File.readdir_cache) : Prop :=
  forall p l, cache !! p = Some l ->
              exists rest, l = (".", true) :: ("..", true) :: rest.

(** ** A concrete environment

    A small remote site and stand-ins for the library functions, to run the
    program on: time stamps are whole seconds since the epoch, the clock of
    the remote listing is UTC. *)

Module Fixture.

Definition int_of_str (s : string) : option Z :=
  option_map Z.of_int (NilZero.int_of_string s).

Definition is_digit (a : ascii) : bool :=
  let n := nat_of_ascii a in ((48 <=? n) && (n <=? 57))%nat.

Fixpoint all_digits (s : string) : bool :=
  match s with
  | EmptyString => true
  | String a rest => is_digit a && all_digits rest
  end.

Definition field (s : string) (start len : nat) : option Z :=
  let f := substring start len s in
  if all_digits f then int_of_str f else None.

(** Days from 1970-01-01 to a date of the Gregorian calendar. *)
Definition days_from_civil (y m d : Z) : Z :=
  let y' := if m <=? 2 then y - 1 else y in
  let era := y' / 400 in
  let yoe := y' - era * 400 in
  let doy := (153 * (if m <=? 2 then m + 9 else m - 3) + 2) / 5 + d - 1 in
  let doe := yoe * 365 + yoe / 4 - yoe / 100 + doy in
  era * 146097 + doe - 719468.

(** [mktime(strptime(s, fmt))] for the format of the listing, with fields of
    fixed width; every other format or text is a [ValueError]. *)
Definition mktime_strptime (s fmt : string) : option Z :=
  if String.eqb fmt "%Y-%m-%d %H:%M" &&
     (String.length s =? 16)%nat &&
     String.eqb (substring 4 1 s) "-" && String.eqb (substring 7 1 s) "-" &&
     String.eqb (substring 10 1 s) " " && String.eqb (substring 13 1 s) ":"
  then
    match field s 0 4, field s 5 2, field s 8 2, field s 11 2, field s 14 2 with
    | Some y, Some m, Some d, Some hh, Some mm =>
        if (1 <=? m) && (m <=? 12) && (1 <=? d) && (d <=? 31) &&
           (hh <=? 23) && (mm <=? 59)
        then Some (days_from_civil y m d * 86400 + hh * 3600 + mm * 60)
        else None
    | _, _, _, _, _ => None
    end
  else None.

(** The rows of an index page as the server's auto-index writes them. *)
Definition row (alt name date : string) : node :=
  Tag "tr" []
    [ Tag "td" [("valign", "top")] [Tag "img" [("src", "/icons/i.gif"); ("alt", alt)] []];
      Tag "td" [] [Tag "a" [("href", name)] [NavigableString name]];
      Tag "td" [("align", "right")] [NavigableString date];
      Tag "td" [("align", "right")] [NavigableString "  - "] ].

Definition header_row : node :=
  Tag "tr" []
    [ Tag "th" [] [Tag "img" [("src", "/icons/blank.gif"); ("alt", "[ICO]")] []];
      Tag "th" [] [Tag "a" [("href", "?C=N;O=D")] [NavigableString "Name"]];
      Tag "th" [] [Tag "a" [("href", "?C=M;O=A")] [NavigableString "Last modified"]];
      Tag "th" [] [Tag "a" [("href", "?C=S;O=A")] [NavigableString "Size"]] ].

Definition parent_row : node :=
  Tag "tr" []
    [ Tag "td" [("valign", "top")] [Tag "img" [("src", "/icons/back.gif"); ("alt", "[PARENTDIR]")] []];
      Tag "td" [] [Tag "a" [("href", "/")] [NavigableString "Parent Directory"]];
      Tag "td" [] [NavigableString " "];
      Tag "td" [("align", "right")] [NavigableString "  - "] ].

Definition page (rows : list node) : node :=
  Tag "[document]" [] [Tag "html" [] [Tag "body" [] [Tag "table" [] rows]]].

(** The index of the root: a directory and a file. *)
Definition index_page : node :=
  page [ header_row; parent_row;
         row "[DIR]" "docs/" "2023-06-01 10:00  ";
         row "[TXT]" "hello.txt" "2024-02-29 23:59  ";
         row "[TXT]" "notes.txt" "2023-06-01 10:00  " ].

(** A row with a cell but no icon. *)
Definition no_icon_page : node :=
  page [ Tag "tr" [] [ Tag "td" [] [NavigableString "x"];
                       Tag "td" [] [Tag "a" [("href", "x")] [NavigableString "x"]] ] ].

(** A row whose link cell has no anchor. *)
Definition no_anchor_page : node :=
  page [ Tag "tr" [] [ Tag "td" [] [Tag "img" [("alt", "[TXT]")] []];
                       Tag "td" [] [NavigableString "x"] ] ].

(** The stand-in for the parser knows the pages of the site by their text. *)
Definition soup (text : string) : node :=
  if String.eqb text "index of /" then index_page
  else if String.eqb text "no icon" then no_icon_page
  else if String.eqb text "no anchor" then no_anchor_page
  else Tag "[document]" [] [NavigableString text].

(** [bytes=lo-hi] *)
Definition parse_range (h : string) : option (Z * Z) :=
  match split "="%char h with
  | [_; rg] =>
      match split "-"%char rg with
      | [a; b] =>
          match int_of_str a, int_of_str b with
          | Some lo, Some hi => Some (lo, hi)
          | _, _ => None
          end
      | _ => None
      end
  | _ => None
  end.

(** A file of 2 MiB of zero bytes. *)
Definition big_size : Z := 2097152.
Definition big_data : list byte := repeat x00 (Z.to_nat big_size).

(** A server that honours byte ranges on [data]: the inclusive range clamped
    to the file, status 206. *)
Definition serve_range (data : list byte) (hs : list (string * string)) : response :=
  match attr_lookup "range" hs with
  | Some h =>
      match parse_range h with
      | Some (lo, hi) =>
          Response 206 [] "" (firstn (Z.to_nat (hi - lo + 1)) (skipn (Z.to_nat lo) data))
      | None => Response 416 [] "" []
      end
  | None => Response 200 [] "" data
  end.

(** The five bytes of [hello.txt]. *)
Definition hello_data : list byte := [x68; x65; x6c; x6c; x6f].

(** The body of an error page. *)
Definition error_body : list byte := [x6f; x6f; x70; x73].

Definition send (history : list request) (rq : request) : response :=
  let u := req_url rq in
  match req_method rq with
  | GET =>
      if String.eqb u "http://host//" then Response 200 [] "index of /" []
      else if String.eqb u "http://host/noicon/" then Response 200 [] "no icon" []
      else if String.eqb u "http://host/noanchor/" then Response 200 [] "no anchor" []
      else if String.eqb u "http://host/hello.txt" then serve_range hello_data (req_headers rq)
      else if String.eqb u "http://host/big.bin" then serve_range big_data (req_headers rq)
      else if String.eqb u "http://host/flaky.bin" then Response 500 [] "" error_body
      else Response 404 [] "" []
  | HEAD =>
      if String.eqb u "http://host/notes.txt"
      then Response 200 [("Content-Length", "500000")] "" []
      else if String.eqb u "http://host/hello.txt"
      then Response 200 [("Content-Length", "5")] "" []
      else if String.eqb u "http://host/docs/" then Response 200 [] "" []
      else if String.eqb u "http://host/big.bin"
      then Response 200 [("Content-Length", "2097152")] "" []
      else if String.eqb u "http://host/flaky.bin"
      then Response 200 [("Content-Length", "3000000")] "" []
      else Response 404 [] "" []
  end.

Definition env : Env Z := Build_Env Z send soup mktime_strptime int_of_str.

(** The clock reading used in the runs: 2023-11-14 22:13:20 UTC. *)
Definition now : Z := 1700000000.

Definition fresh {T : Type} (o : T) : state T := State [] o.

(** The listing of the root as [Directory.contents] returns it. *)
Definition root_listing : list Directory.entry :=
  [(".", true); ("..", true); ("docs", true); ("hello.txt", false);
   ("notes.txt", false)].

(** The handles [File.__init__] returns for [notes.txt], and for [docs] with
    [dirmtime]. *)
Definition notes : @File.t Z :=
  File.Build "http://host" "notes.txt" false false "http://host/notes.txt"
    (Response 200 [("Content-Length", "500000")] "" []) 500000 (Some now).

Definition docs : @File.t Z :=
  File.Build "http://host" "docs" true true "http://host/docs/"
    (Response 200 [] "" []) 0 (Some 1685613600).

(** The handles [File.__init__] returns for three of the files. *)
Definition hello : @File.t Z :=
  File.Build "http://host" "hello.txt" false false "http://host/hello.txt"
    (Response 200 [("Content-Length", "5")] "" []) 5 (Some now).

Definition big : @File.t Z :=
  File.Build "http://host" "big.bin" false false "http://host/big.bin"
    (Response 200 [("Content-Length", "2097152")] "" []) 2097152 (Some now).

Definition flaky : @File.t Z :=
  File.Build "http://host" "flaky.bin" false false "http://host/flaky.bin"
    (Response 200 [("Content-Length", "3000000")] "" []) 3000000 (Some now).

End Fixture.

(** ** A second site, with odd headers

    The same site behind a server that sends a [Content-Length] that is not a
    number for [odd.txt], a [Last-Modified] that is not a date for
    [stale.txt], and a proper one for [dated.txt]. *)

Module Odd.

Definition send (history : list request) (rq : request) : response :=
  let u := req_url rq in
  match req_method rq with
  | HEAD =>
      if String.eqb u "http://host/odd.txt"
      then Response 200 [("Content-Length", "12 bytes")] "" []
      else if String.eqb u "http://host/stale.txt"
      then Response 200 [("Content-Length", "7"); ("Last-Modified", "yesterday")] "" []
      else if String.eqb u "http://host/dated.txt"
      then Response 200 [("Content-Length", "7");
                         ("Last-Modified", "Thu, 01 Jun 2023 10:00:00 GMT")] "" []
      else Fixture.send history rq
  | GET => Fixture.send history rq
  end.

(** The stand-in for [strptime] knows the one date of the site in the format
    of the header. *)
Definition mktime_strptime (s fmt : string) : option Z :=
  if String.eqb fmt "%a, %d %b %Y %H:%M:%S %Z" then
    if String.eqb s "Thu, 01 Jun 2023 10:00:00 GMT" then Some 1685613600 else None
  else Fixture.mktime_strptime s fmt.

Definition env : Env Z :=
  Build_Env Z send Fixture.soup mktime_strptime Fixture.int_of_str.

End Odd.
(** * Properties *)

(** ** Block arithmetic *)

Lemma offset_from_mb_mod (offset : Z) :
  offset_from_mb offset = offset mod blockSize.
Proof.
  unfold offset_from_mb, blockSize.
  change 1048576 with (1024 * 1024).
  rewrite Z.rem_mul_r by lia. lia.
Qed.

Lemma mb_start_div (offset : Z) : mb_start offset = offset / blockSize.
Proof.
  unfold mb_start, blockSize. change 1048576 with (1024 * 1024).
  rewrite Z.div_div by lia. reflexivity.
Qed.

(** ** [File.read] *)

Section ReadFacts.

Context {timestamp : Type} `{E : Env timestamp}.

Implicit Types (self : @File.t timestamp) (rb : File.readbuffer) (tr : list request).

Ltac run := unfold File.read, File.fill, File.readbuffer_get, File.readbuffer_set,
  session_get, session_request, bind, get_obj, put_obj, ret, raise; simpl.

(** A read inside one block whose content is cached sends nothing and leaves
    the cache as it is. *)
Lemma read_cached self length offset tr rb block :
  mb_start offset = mb_end offset length ->
  rb !! mb_start offset = Some (Some block) ->
  File.read self length offset (State tr rb) =
    (Ok (slice block (offset_from_mb offset) (offset_from_mb offset + length)),
     State tr rb).
Proof.
  intros Hmb Hrb. run. rewrite <- Hmb, Z.eqb_refl. simpl.
  rewrite Hrb. simpl. rewrite Hrb. simpl. rewrite Hrb. reflexivity.
Qed.

(** A read inside one block that is not cached sends the block request; on
    200 or 206 the body is stored under the block index and sliced. *)
Lemma read_uncached_ok self length offset tr rb :
  mb_start offset = mb_end offset length ->
  cached rb (mb_start offset) = None ->
  let rq := block_request self (mb_start offset) in
  let resp := session_send tr rq in
  success (status_code resp) = true ->
  File.read self length offset (State tr rb) =
    (Ok (slice (content resp) (offset_from_mb offset) (offset_from_mb offset + length)),
     State (tr ++ [rq]) (<[mb_start offset := Some (content resp)]> rb)).
Proof.
  intros Hmb Hrb rq resp Hok. subst resp rq. unfold block_request in *. run. rewrite <- Hmb, Z.eqb_refl. simpl.
  unfold cached in Hrb. unfold success in Hok.
  destruct (rb !! mb_start offset) as [[b|]|] eqn:Hl; try discriminate; simpl.
  - rewrite Hl. simpl. rewrite Hok. simpl.
    repeat (rewrite lookup_insert_eq; simpl). reflexivity.
  - rewrite lookup_insert_eq. simpl. rewrite Hok. simpl.
    repeat (rewrite lookup_insert_eq; simpl).
    do 2 f_equal. apply map_eq. intros k.
    rewrite !lookup_insert. repeat case_decide; congruence.
Qed.

(** On any other status the read fails with [EIO], and no content is
    stored. *)
Lemma read_uncached_fail self length offset tr rb :
  mb_start offset = mb_end offset length ->
  cached rb (mb_start offset) = None ->
  let rq := block_request self (mb_start offset) in
  let resp := session_send tr rq in
  success (status_code resp) = false ->
  File.read self length offset (State tr rb) =
    (Raise (FuseOSError EIO), State (tr ++ [rq]) (<[mb_start offset := None]> rb)).
Proof.
  intros Hmb Hrb rq resp Hok. subst resp rq. unfold block_request in *. run. rewrite <- Hmb, Z.eqb_refl. simpl.
  unfold cached in Hrb. unfold success in Hok.
  destruct (rb !! mb_start offset) as [[b|]|] eqn:Hl; try discriminate; simpl.
  - rewrite Hl. simpl. rewrite Hok.
    rewrite insert_id by exact Hl. reflexivity.
  - rewrite lookup_insert_eq. simpl. rewrite Hok.
    reflexivity.
Qed.

(** A read that spans blocks sends the span request and never touches the
    cache; its outcome is decided by the status of the probe of [__init__]
    or a 206 of the range request. *)
Lemma read_span self length offset tr rb :
  mb_start offset <> mb_end offset length ->
  let rq := span_request self length offset in
  let resp := session_send tr rq in
  File.read self length offset (State tr rb) =
    (if (status_code (File.r self) =? 200) || (status_code resp =? 206)
     then Ok (content resp) else Raise (FuseOSError EIO),
     State (tr ++ [rq]) rb).
Proof.
  intros Hmb rq resp. subst resp rq. unfold span_request. run.
  destruct (Z.eqb_spec (mb_start offset) (mb_end offset length)) as [Heq|_];
    [contradiction|].
 
  simpl. destruct (_ || _); reflexivity.
Qed.

(** One read keeps the content of every cached block. *)
Lemma read_keeps_blocks self length offset (st : state File.readbuffer) k block :
  obj st !! k = Some (Some block) ->
  obj (snd (File.read self length offset st)) !! k = Some (Some block).
Proof.
  destruct st as [tr rb]. simpl. intros Hk.
  destruct (decide (mb_start offset = mb_end offset length)) as [Hmb|Hmb].
  - destruct (cached rb (mb_start offset)) as [b|] eqn:Hc.
    + assert (Hl : rb !! mb_start offset = Some (Some b)).
      { unfold cached in Hc. destruct (rb !! mb_start offset) as [[b'|]|]; congruence. }
      rewrite (read_cached _ _ _ _ _ _ Hmb Hl). exact Hk.
    + assert (Hn : k <> mb_start offset).
      { intros ->. unfold cached in Hc. rewrite Hk in Hc. discriminate. }
      destruct (success (status_code (session_send tr (block_request self (mb_start offset)))))
        eqn:Hs.
      * rewrite (read_uncached_ok _ _ _ _ _ Hmb Hc Hs). simpl.
        rewrite lookup_insert_ne; [exact Hk|congruence].
      * rewrite (read_uncached_fail _ _ _ _ _ Hmb Hc Hs). simpl.
        rewrite lookup_insert_ne; [exact Hk|congruence].
  - rewrite (read_span _ _ _ _ _ Hmb). exact Hk.
Qed.

(** C7 (as amended): a block that is in the cache with its content is never
    fetched again, overwritten or evicted.  Whatever reads follow, a cached
    block keeps its content; a read inside a cached block sends no request
    and changes nothing; a read that spans blocks leaves the cache as it is.
    Of two consecutive reads of one region inside a block, when the first
    returns, the second returns the same bytes from the cache without sending
    or changing anything, so that the two send exactly one request when the
    block was not cached before and none when it was; when the first is
    refused it raises [EIO], nothing is cached, and the second sends the
    request again. *)
Theorem block_cache_stable self length offset (st : state File.readbuffer) :
  let st1 := snd (File.read self length offset st) in
  (forall reads k block,
      obj st !! k = Some (Some block) ->
      obj (run_reads self reads st) !! k = Some (Some block)) /\
  (forall block,
      mb_start offset = mb_end offset length ->
      obj st !! mb_start offset = Some (Some block) ->
      st1 = st) /\
  (mb_start offset <> mb_end offset length -> obj st1 = obj st) /\
  (forall data,
      mb_start offset = mb_end offset length ->
      fst (File.read self length offset st) = Ok data ->
      File.read self length offset st1 = (Ok data, st1) /\
      trace st1 = trace st ++
        match cached (obj st) (mb_start offset) with
        | Some _ => []
        | None => [block_request self (mb_start offset)]
        end) /\
  (forall e,
      mb_start offset = mb_end offset length ->
      fst (File.read self length offset st) = Raise e ->
      e = FuseOSError EIO /\
      cached (obj st) (mb_start offset) = None /\
      cached (obj st1) (mb_start offset) = None /\
      trace (snd (File.read self length offset st1))
        = trace st ++ [block_request self (mb_start offset);
                       block_request self (mb_start offset)]).
Proof.
  cbv zeta. split.
  { intros reads. clear length offset. revert st.
    induction reads as [|[len off] reads IH]; intros st k block Hk.
    - exact Hk.
    - simpl. apply IH. apply read_keeps_blocks, Hk. }
  destruct st as [tr rb]. cbn [trace obj].
  destruct (decide (mb_start offset = mb_end offset length)) as [Hmb|Hmb].
  - destruct (cached rb (mb_start offset)) as [block|] eqn:Hc.
    + assert (Hl : rb !! mb_start offset = Some (Some block)).
      { unfold cached in Hc. destruct (rb !! mb_start offset) as [[b|]|]; congruence. }
      rewrite (read_cached _ _ _ _ _ _ Hmb Hl). cbn [fst snd trace obj].
      split; [|split; [|split]].
      * reflexivity.
      * reflexivity.
      * intros data _ Hd. rewrite (read_cached _ _ _ _ _ _ Hmb Hl).
        rewrite app_nil_r. split; congruence.
      * intros e _ He. discriminate.
    + assert (Hn : forall block, rb !! mb_start offset <> Some (Some block)).
      { intros block Hk. unfold cached in Hc. rewrite Hk in Hc. discriminate. }
      destruct (success (status_code (session_send tr (block_request self (mb_start offset)))))
        eqn:Hs.
      * rewrite (read_uncached_ok _ _ _ _ _ Hmb Hc Hs). cbn [fst snd trace obj].
        split; [|split; [|split]].
        -- intros block _ Hl. exfalso. exact (Hn _ Hl).
        -- intros Hne. contradiction.
        -- intros data _ Hd.
           rewrite (read_cached self length offset _ _ _ Hmb (lookup_insert_eq _ _ _)).
           split; congruence.
        -- intros e _ He. discriminate.
      * rewrite (read_uncached_fail _ _ _ _ _ Hmb Hc Hs). cbn [fst snd trace obj].
        assert (Hc1 : cached (<[mb_start offset := None]> rb) (mb_start offset) = None).
        { unfold cached. rewrite lookup_insert_eq. reflexivity. }
        split; [|split; [|split]].
        -- intros block _ Hl. exfalso. exact (Hn _ Hl).
        -- intros Hne. contradiction.
        -- intros data _ Hd. discriminate.
        -- intros e _ [= <-]. split; [reflexivity|]. split; [reflexivity|].
           split; [exact Hc1|].
           destruct (success (status_code
                       (session_send (tr ++ [block_request self (mb_start offset)])
                          (block_request self (mb_start offset))))) eqn:Hs2.
           ++ rewrite (read_uncached_ok _ _ _ _ _ Hmb Hc1 Hs2). cbn [snd trace].
              rewrite <- app_assoc. reflexivity.
           ++ rewrite (read_uncached_fail _ _ _ _ _ Hmb Hc1 Hs2). cbn [snd trace].
              rewrite <- app_assoc. reflexivity.
  - rewrite (read_span _ _ _ _ _ Hmb). cbn [fst snd trace obj].
    split; [|split; [|split]].
    + intros block Heq. contradiction.
    + reflexivity.
    + intros data Heq. contradiction.
    + intros e Heq. contradiction.
Qed.

(** C10: for a non-negative offset the offset inside the block that the read
    computes is the offset modulo the block size, 1048576, so the slice a
    read inside a cached block returns starts at the offset of the request
    within the block. *)
Theorem offset_from_mb_is_offset_mod_block self length offset tr rb block :
  0 <= offset ->
  offset_from_mb offset = offset mod 1048576 /\
  offset = mb_start offset * 1048576 + offset_from_mb offset /\
  (mb_start offset = mb_end offset length ->
   rb !! mb_start offset = Some (Some block) ->
   fst (File.read self length offset (State tr rb)) =
     Ok (slice block (offset mod 1048576) (offset mod 1048576 + length))).
Proof.
  intros _. pose proof (offset_from_mb_mod offset) as Hmod.
  pose proof (mb_start_div offset) as Hdiv. unfold blockSize in *.
  split; [exact Hmod|]. split.
  - rewrite Hmod, Hdiv. pose proof (Z.div_mod offset 1048576). lia.
  - intros Hmb Hl. rewrite (read_cached _ _ _ _ _ _ Hmb Hl). simpl.
    rewrite Hmod. reflexivity.
Qed.

End ReadFacts.

Lemma block_cache_stable_witness :
  let st0 := Fixture.fresh (∅ : File.readbuffer) in
  let st1 := snd (File.read (E := Fixture.env) Fixture.hello 3 1 st0) in
  (File.read (E := Fixture.env) Fixture.hello 3 1 st1 = (Ok [x65; x6c; x6c], st1) /\
   trace st1 = [block_request Fixture.hello 0]) /\
  obj (run_reads (E := Fixture.env) Fixture.hello [(3, 1); (2000000, 0); (2, 3)] st1) !! 0
    = Some (Some Fixture.hello_data) /\
  obj (snd (File.read (E := Fixture.env) Fixture.hello 2000000 0 st1)) = obj st1 /\
  trace (snd (File.read (E := Fixture.env) Fixture.flaky 10 0
                (snd (File.read (E := Fixture.env) Fixture.flaky 10 0 st0))))
    = [block_request Fixture.flaky 0; block_request Fixture.flaky 0].
Proof.
  intros st0 st1.
  assert (Hc : obj st1 !! 0 = Some (Some Fixture.hello_data)) by (vm_compute; reflexivity).
  split; [|split; [|split]].
  - pose proof (block_cache_stable (E := Fixture.env) Fixture.hello 3 1 st0)
      as (_ & _ & _ & H & _).
    destruct (H [x65; x6c; x6c]) as [H2 H3]; [reflexivity | vm_compute; reflexivity |].
    split; [exact H2|]. subst st1. rewrite H3. reflexivity.
  - pose proof (block_cache_stable (E := Fixture.env) Fixture.hello 3 1 st1)
      as (H & _).
    exact (H _ 0 Fixture.hello_data Hc).
  - pose proof (block_cache_stable (E := Fixture.env) Fixture.hello 2000000 0 st1)
      as (_ & _ & H & _).
    apply H. vm_compute. discriminate.
  - pose proof (block_cache_stable (E := Fixture.env) Fixture.flaky 10 0 st0)
      as (_ & _ & _ & _ & H).
    destruct (H (FuseOSError EIO)) as (_ & _ & _ & H4);
      [reflexivity | vm_compute; reflexivity |].
    exact H4.
Defined.

(** C7, as stated, fails on two consecutive reads of one region inside a
    block: on [flaky.bin], whose block request the server refuses, both reads
    raise [EIO] and two requests are sent, not one; and on a block that is
    cached before the first read, none is sent. *)
Lemma two_reads_do_not_always_send_one_request :
  mb_start 0 = mb_end 0 10 /\
  (let st1 := snd (File.read (E := Fixture.env) Fixture.flaky 10 0 (State [] ∅)) in
   fst (File.read (E := Fixture.env) Fixture.flaky 10 0 (State [] ∅))
     = Raise (FuseOSError EIO) /\
   fst (File.read (E := Fixture.env) Fixture.flaky 10 0 st1) = Raise (FuseOSError EIO) /\
   trace (snd (File.read (E := Fixture.env) Fixture.flaky 10 0 st1))
     = [Request GET "http://host/flaky.bin" [("range", "bytes=0-1047552")];
        Request GET "http://host/flaky.bin" [("range", "bytes=0-1047552")]]) /\
  (let st0 := State [] ({[ 0 := Some Fixture.hello_data ]} : File.readbuffer) in
   let st1 := snd (File.read (E := Fixture.env) Fixture.hello 3 1 st0) in
   fst (File.read (E := Fixture.env) Fixture.hello 3 1 st0) = Ok [x65; x6c; x6c] /\
   fst (File.read (E := Fixture.env) Fixture.hello 3 1 st1) = Ok [x65; x6c; x6c] /\
   trace (snd (File.read (E := Fixture.env) Fixture.hello 3 1 st1)) = []).
Proof. repeat split; vm_compute; reflexivity. Qed.

Lemma offset_from_mb_is_offset_mod_block_witness :
  offset_from_mb 1048577 = 1 /\
  fst (File.read (E := Fixture.env) Fixture.big 3 1048577
         (State [] {[ 1 := Some Fixture.hello_data ]}))
    = Ok [x65; x6c; x6c].
Proof.
  pose proof (offset_from_mb_is_offset_mod_block (E := Fixture.env)
                Fixture.big 3 1048577 [] {[ 1 := Some Fixture.hello_data ]}
                Fixture.hello_data) as (H1 & _ & H3); [lia|].
  split; [exact H1|].
  rewrite H3; reflexivity.
Defined.

(** ** The reads of the specification's scenarios, on the concrete site *)

(** The handles of the site are those [File.__init__] returns. *)
Lemma fixture_handles :
  fst (File.init (E := Fixture.env) Fixture.now "http://host" "hello.txt" false
         (Fixture.fresh ∅)) = Ok Fixture.hello /\
  fst (File.init (E := Fixture.env) Fixture.now "http://host" "big.bin" false
         (Fixture.fresh ∅)) = Ok Fixture.big /\
  fst (File.init (E := Fixture.env) Fixture.now "http://host" "flaky.bin" false
         (Fixture.fresh ∅)) = Ok Fixture.flaky.
Proof. repeat split; vm_compute; reflexivity. Qed.

Lemma slice_out_of_range {A : Type} (l : list A) (i j : Z) :
  Z.of_nat (List.length l) <= i -> slice l i j = [].
Proof.
  intros Hi. unfold slice, clamp_index. cbv zeta.
  destruct (Z.ltb_spec i 0) as [Hneg|Hpos]; [lia|].
  rewrite !(Z.min_r i) by lia. rewrite Nat2Z.id.
  rewrite skipn_all. apply firstn_nil.
Qed.

Lemma big_data_length : Z.of_nat (List.length Fixture.big_data) = Fixture.big_size.
Proof.
  unfold Fixture.big_data. rewrite repeat_length.
  unfold Fixture.big_size. lia.
Qed.

(** The first block of [big.bin] as the server returns it for the request of
    [File.read]: 1047553 bytes, 1023 short of a block. *)
Lemma big_block0 :
  let resp := session_send (Env := Fixture.env) [] (block_request Fixture.big 0) in
  status_code resp = 206 /\
  Z.of_nat (List.length (content resp)) = 1047553.
Proof.
  assert (Hr : session_send (Env := Fixture.env) [] (block_request Fixture.big 0)
               = Response 206 [] ""
                   (firstn (Z.to_nat (1047552 - 0 + 1)) (skipn (Z.to_nat 0) Fixture.big_data)))
    by (lazy -[Z.to_nat Fixture.big_data firstn skipn Z.sub Z.add]; reflexivity).
  cbv zeta. rewrite Hr. cbn [status_code content]. split; [reflexivity|].
  rewrite length_firstn, length_skipn.
  pose proof big_data_length as Hl. unfold Fixture.big_size in Hl. lia.
Qed.

(** C1: on [big.bin], 2 MiB served by a server that honours byte ranges, the
    read of the 100 bytes at offset 1048000 lies inside block 0 and inside the
    file, and returns the empty byte string, not 100 bytes and not an error:
    the cached block ends at byte 1047552. *)
Theorem read_near_block_end_returns_nothing :
  mb_start 1048000 = mb_end 1048000 100 /\
  1048000 + 100 <= File.size Fixture.big /\
  Z.of_nat (List.length Fixture.big_data) = File.size Fixture.big /\
  fst (File.read (E := Fixture.env) Fixture.big 100 1048000 (Fixture.fresh ∅)) = Ok [].
Proof.
  split; [reflexivity|]. split; [simpl; lia|]. split; [exact big_data_length|].
  destruct big_block0 as [Hs Hlen].
  unfold Fixture.fresh.
  rewrite (read_uncached_ok (E := Fixture.env) Fixture.big 100 1048000 [] ∅).
  - cbn [fst]. apply (f_equal Ok). apply slice_out_of_range.
    change (mb_start 1048000) with 0. rewrite Hlen. vm_compute. discriminate.
  - reflexivity.
  - reflexivity.
  - change (mb_start 1048000) with 0. unfold success. rewrite Hs. reflexivity.
Qed.

(** C2: the read of 10 bytes at offset 0 with an empty cache lies inside
    block 0 and sends one request, for the bytes 0-1047552; the last byte of
    block 0 is 1048575. *)
Theorem block_request_stops_short_of_block_end :
  mb_start 0 = mb_end 0 10 /\
  trace (snd (File.read (E := Fixture.env) Fixture.big 10 0 (Fixture.fresh ∅)))
    = [Request GET "http://host/big.bin" [("range", "bytes=0-1047552")]] /\
  mb_start 0 * blockSize + blockSize - 1 = 1048575.
Proof.
  split; [reflexivity|]. split; [|reflexivity].
  destruct big_block0 as [Hs _].
  unfold Fixture.fresh.
  rewrite (read_uncached_ok (E := Fixture.env) Fixture.big 10 0 [] ∅).
  - cbn [snd trace]. reflexivity.
  - reflexivity.
  - reflexivity.
  - change (mb_start 0) with 0. unfold success. rewrite Hs. reflexivity.
Qed.

(** C3: on [flaky.bin], whose probe was answered with 200, the read of
    2000000 bytes at offset 0 spans blocks; the server answers its range
    request with status 500 and an error page, and the read returns the error
    page as the bytes of the file instead of failing with [EIO]. *)
Theorem span_read_returns_error_page :
  mb_start 0 <> mb_end 0 2000000 /\
  status_code (File.r Fixture.flaky) = 200 /\
  status_code (session_send (Env := Fixture.env) [] (span_request Fixture.flaky 2000000 0)) = 500 /\
  File.read (E := Fixture.env) Fixture.flaky 2000000 0 (Fixture.fresh ∅)
    = (Ok Fixture.error_body,
       State [Request GET "http://host/flaky.bin" [("range", "bytes=0-1999999")]] ∅).
Proof.
  split; [vm_compute; discriminate|]. split; [reflexivity|]. split; [reflexivity|].
  vm_compute. reflexivity.
Qed.

(** ** [Directory.contents] *)

Lemma strip_name (s : string) :
  is_name s = true -> strip is_slash s = rstrip is_slash s.
Proof.
  unfold is_name, strip. destruct (rstrip is_slash s) as [|a r]; [reflexivity|].
  simpl. destruct (is_slash a); [discriminate|reflexivity].
Qed.

Section DirectoryFacts.

Context {timestamp : Type} `{E : Env timestamp}.

Ltac rows := unfold entry_of, row_defect, listed, row_alt, row_link_text,
  Directory.row_selected, Directory.row_entry, Directory.nth_td,
  Directory.anchor_string, subscript, rbind in *.

(** A row without defect is visited without exception: it is selected when
    it is listed, and its entry is the stripped link text with the flag of
    its icon. *)
Lemma row_accepted (x : node) :
  row_defect x = None ->
  Directory.row_selected x = Ok (listed x) /\
  (listed x = true ->
   Directory.row_entry x =
     Ok (strip is_slash (default "" (row_link_text x)), snd (entry_of x))).
Proof.
  intros H. rows.
  repeat (case_match; simplify_eq/=); split; try reflexivity; try discriminate;
    intros; try reflexivity; try discriminate.
Qed.

(** A row with a defect raises the exception of its defect, in the test of
    line 35 or in the entry of line 37. *)
Lemma row_rejected (x : node) (e : exn) :
  row_defect x = Some e ->
  Directory.row_selected x = Raise e \/
  (Directory.row_selected x = Ok true /\ Directory.row_entry x = Raise e).
Proof.
  intros H. rows.
  repeat (case_match; simplify_eq/=); auto.
Qed.

Lemma row_defect_builtin (x : node) (e : exn) :
  row_defect x = Some e -> In (class_name e) builtin_classes.
Proof.
  intros H. unfold row_defect in H.
  repeat (case_match; simplify_eq/=); auto.
Qed.

Lemma contents_loop_well_formed (rows : list node) (acc : list Directory.entry) :
  forallb well_formed_row rows = true ->
  Directory.contents_loop rows acc
    = Ok (acc ++ List.map entry_of (List.filter listed rows)).
Proof.
  revert acc. induction rows as [|x rows IH]; intros acc Hwf; simpl.
  - rewrite app_nil_r. reflexivity.
  - simpl in Hwf. apply andb_prop in Hwf as [Hx Hrows].
    unfold well_formed_row in Hx.
    destruct (row_defect x) eqn:Hd; [discriminate|].
    destruct (row_accepted x Hd) as [Hsel Hentry].
    unfold rbind. rewrite Hsel.
    destruct (listed x) eqn:Hl.
    + rewrite (Hentry eq_refl). simpl in Hx.
      rewrite (strip_name _ Hx). rewrite (IH _ Hrows).
      simpl. rewrite <- app_assoc. reflexivity.
    + apply (IH _ Hrows).
Qed.

Lemma contents_loop_defect (rows : list node) (acc : list Directory.entry) (e : exn) :
  first_defect rows = Some e ->
  Directory.contents_loop rows acc = Raise e.
Proof.
  unfold first_defect. revert acc.
  induction rows as [|x rows IH]; intros acc Hd; simpl in *; [discriminate|].
  unfold rbind. destruct (row_defect x) as [e'|] eqn:Hx; simpl in Hd.
  - injection Hd as ->.
    destruct (row_rejected x e Hx) as [Hsel|[Hsel Hentry]]; rewrite Hsel;
      [reflexivity|]. rewrite Hentry. reflexivity.
  - destruct (row_accepted x Hx) as [Hsel Hentry]. rewrite Hsel.
    destruct (listed x) eqn:Hl.
    + rewrite (Hentry eq_refl). apply IH, Hd.
    + apply IH, Hd.
Qed.

(** C8: on a well-formed index page, [Directory.contents] sends one GET for
    the page and returns the entries [(".", dir)] and [("..", dir)] followed,
    in the order of the page, by one entry for each row whose icon has an
    alternate text other than [[PARENTDIR]]: its name is the link text
    without its trailing separators, and it is a directory exactly when the
    alternate text is [[DIR]]. *)
Theorem contents_of_well_formed_page {T : Type} (root path : string) (st : state T) :
  let rq := Request GET (root +:+ "/" +:+ path +:+ "/") [] in
  let parsed := BeautifulSoup (text (session_send (trace st) rq)) in
  well_formed parsed = true ->
  Directory.contents root path st =
    (Ok ((".", true) :: ("..", true) ::
         List.map entry_of (List.filter listed (find_all "tr" parsed))),
     State (trace st ++ [rq]) (obj st)) /\
  (forall x, listed x = true <->
             exists alt, row_alt x = Some alt /\ alt <> "[PARENTDIR]") /\
  (forall x, entry_of x = (rstrip is_slash (default "" (row_link_text x)),
                           bool_decide (row_alt x = Some "[DIR]"))).
Proof.
  intros rq parsed Hwf. split; [|split].
  - unfold Directory.contents, session_get, session_request, bind, lift.
    simpl. fold rq. fold parsed. unfold Directory.contents_of_soup.
    rewrite (contents_loop_well_formed _ _ Hwf). reflexivity.
  - intros x. unfold listed. destruct (row_alt x) as [alt|].
    + destruct (String.eqb_spec alt "[PARENTDIR]") as [->|Hne]; simpl.
      * split; [discriminate|]. intros (a & Ha & Hne). congruence.
      * split; [|reflexivity]. intros _. exists alt. auto.
    + split; [discriminate|]. intros (a & Ha & _). discriminate.
  - intros x. unfold entry_of. f_equal. destruct (row_alt x) as [alt|].
    + destruct (String.eqb_spec alt "[DIR]") as [->|Hne].
      * rewrite bool_decide_eq_true_2; reflexivity.
      * rewrite bool_decide_eq_false_2; [reflexivity|]. congruence.
    + rewrite bool_decide_eq_false_2; [reflexivity|]. discriminate.
Qed.

(** C9 (as amended): a page with a defective row makes the parse raise the
    exception of the first defective row, which is one of Python's own
    [TypeError], [KeyError], [IndexError] and [AttributeError], never a
    [ParseError]; in particular a row with a cell but no icon image raises
    [TypeError], and a row whose link cell has no anchor raises
    [AttributeError]. *)
Theorem defective_page_raises_builtin (parsed : node) (e : exn) :
  first_defect (find_all "tr" parsed) = Some e ->
  Directory.contents_of_soup parsed = Raise e /\
  In (class_name e) builtin_classes /\
  class_name e <> "ParseError".
Proof.
  intros Hd. split; [apply contents_loop_defect, Hd|].
  assert (Hb : In (class_name e) builtin_classes).
  { unfold first_defect in Hd.
    induction (find_all "tr" parsed) as [|x rows IH]; simpl in Hd; [discriminate|].
    destruct (row_defect x) as [e'|] eqn:Hx; simpl in Hd.
    - injection Hd as ->. exact (row_defect_builtin _ _ Hx).
    - apply IH, Hd. }
  split; [exact Hb|].
  intros Heq. rewrite Heq in Hb. unfold builtin_classes in Hb. simpl in Hb.
  intuition discriminate.
Qed.

End DirectoryFacts.

Lemma contents_of_well_formed_page_witness :
  Directory.contents (E := Fixture.env) "http://host" "" (Fixture.fresh tt) =
    (Ok [(".", true); ("..", true); ("docs", true); ("hello.txt", false);
         ("notes.txt", false)],
     State [Request GET "http://host//" []] tt).
Proof.
  destruct (contents_of_well_formed_page (E := Fixture.env) "http://host" ""
              (Fixture.fresh tt)) as [H _]; [reflexivity|].
  rewrite H. reflexivity.
Defined.

Lemma defective_page_raises_builtin_witness :
  Directory.contents_of_soup Fixture.no_icon_page = Raise TypeError /\
  Directory.contents_of_soup Fixture.no_anchor_page = Raise AttributeError.
Proof.
  split.
  - apply (defective_page_raises_builtin Fixture.no_icon_page TypeError). reflexivity.
  - apply (defective_page_raises_builtin Fixture.no_anchor_page AttributeError).
    reflexivity.
Defined.

(** C9, as stated, fails on both pages of its examples: the page whose row
    has a cell but no icon image raises [TypeError], the page whose link cell
    has no anchor raises [AttributeError], and neither is a [ParseError]. *)
Lemma defective_page_does_not_raise_ParseError :
  fst (Directory.contents (E := Fixture.env) "http://host" "noicon" (Fixture.fresh tt))
    = Raise TypeError /\
  fst (Directory.contents (E := Fixture.env) "http://host" "noanchor" (Fixture.fresh tt))
    = Raise AttributeError /\
  class_name TypeError <> "ParseError" /\
  class_name AttributeError <> "ParseError".
Proof.
  repeat split; try reflexivity; discriminate.
Qed.

(** ** [File.__init__] *)

Section InitFacts.

Context {timestamp : Type} `{E : Env timestamp}.

Implicit Types (cache : File.readdir_cache) (tr : list request).

Ltac run := unfold File.populate, File.probe, File.mtime_from_listing,
  Directory.contents, session_get, session_head, session_request,
  bind, lift, get_obj, put_obj, ret, raise; simpl.

Lemma populate_cached root p tr cache l :
  cache !! p = Some l ->
  File.populate root p (State tr cache) = (Ok tt, State tr cache).
Proof. intros H. run. rewrite H. reflexivity. Qed.

Lemma populate_uncached root p tr cache :
  cache !! p = None ->
  File.populate root p (State tr cache) =
    match Directory.contents_of_soup
            (BeautifulSoup (text (session_send tr (listing_request root p)))) with
    | Ok c => (Ok tt, State (tr ++ [listing_request root p]) (<[p := c]> cache))
    | Raise e => (Raise e, State (tr ++ [listing_request root p]) cache)
    end.
Proof.
  intros H. run. rewrite H. simpl. unfold listing_request.
  destruct (Directory.contents_of_soup _); reflexivity.
Qed.

(** The probe never writes to the cache, and sends the HEAD request followed,
    only for a directory with [dirmtime] set, by at most one GET of the
    listing of the parent. *)
Lemma probe_state now root path dm tr cache :
  let st' := snd (File.probe now root path dm (State tr cache)) in
  obj st' = cache /\
  match cache !! File.parent_dir_of path with
  | None => trace st' = tr
  | Some l =>
      let is_dir := File.is_dir_in l (File.filename_of path) in
      trace st' = tr ++ [probe_request root path is_dir] \/
      (trace st' = tr ++ [probe_request root path is_dir;
                          listing_request root (File.parent_dir_of path)] /\
       dm = true /\ is_dir = true)
  end.
Proof.
  run. destruct (cache !! File.parent_dir_of path) as [l|]; simpl; [|auto].
  unfold probe_request, listing_request.
  destruct (status_code _ =? 200); simpl; [|auto].
  destruct (File.size_of_headers _); simpl; [|auto].
  unfold File.mtime_of_headers.
  destruct (header_lookup "Last-Modified" _); simpl.
  - destruct (mktime_strptime _ _); simpl; auto.
  - destruct (File.is_dir_in l (File.filename_of path)) eqn:Hd; simpl; [|auto].
    destruct dm; simpl; [|auto].
    rewrite <- app_assoc. simpl.
    destruct (File.mtime_loop _ _ _); simpl; auto.
Qed.

(** What a probe that returns a [File] has done. *)
Lemma probe_ok now root path dm tr cache f st' :
  File.probe now root path dm (State tr cache) = (Ok f, st') ->
  exists l, cache !! File.parent_dir_of path = Some l /\
    let is_dir := File.is_dir_in l (File.filename_of path) in
    let rq := probe_request root path is_dir in
    let rq2 := listing_request root (File.parent_dir_of path) in
    File.is_dir f = is_dir /\ File.url f = req_url rq /\
    File.r f = session_send tr rq /\ obj st' = cache /\
    if status_code (File.r f) =? 200 then
      File.size_of_headers (headers (File.r f)) = Ok (File.size f) /\
      match File.mtime_of_headers now is_dir dm (headers (File.r f)) with
      | Ok (Some m) => File.mtime f = Some m /\ trace st' = tr ++ [rq]
      | Ok None =>
          trace st' = tr ++ [rq; rq2] /\
          File.mtime_loop (File.filename_of path)
            (find_all "tr" (BeautifulSoup (text (session_send (tr ++ [rq]) rq2)))) None
            = Ok (File.mtime f)
      | Raise _ => False
      end
    else File.size f = 0 /\ File.mtime f = None /\ trace st' = tr ++ [rq].
Proof.
  run. destruct (cache !! File.parent_dir_of path) as [l|]; simpl; [|discriminate].
  intros H. exists l. split; [reflexivity|].
  unfold probe_request, listing_request. simpl.
  destruct (status_code _ =? 200) eqn:Hs; simpl in H.
  - destruct (File.size_of_headers _) as [sz|] eqn:Hsz; simpl in H; [|discriminate].
    destruct (File.mtime_of_headers _ _ _ _) as [[m|]|] eqn:Hm; simpl in H;
      [| |discriminate].
    + injection H as <- <-. simpl. rewrite Hs, Hsz, Hm. auto 10.
    + rewrite <- app_assoc in H. simpl in H.
      destruct (File.mtime_loop _ _ _) as [m'|] eqn:Hl; simpl in H; [|discriminate].
      injection H as <- <-. simpl. rewrite Hs, Hsz, Hm. auto 10.
  - injection H as <- <-. simpl. rewrite Hs. auto 10.
Qed.

(** [__init__] is the population of the cache followed by the probe. *)
Lemma init_ok now root path dm st f st' :
  File.init now root path dm st = (Ok f, st') ->
  exists st1,
    File.populate root (File.parent_dir_of path) st = (Ok tt, st1) /\
    File.probe now root path dm st1 = (Ok f, st').
Proof.
  unfold File.init, bind.
  destruct (File.populate _ _ st) as [[[]|e] st1]; [|discriminate].
  intros H. exists st1. auto.
Qed.

(** One row of the fallback, when it does not raise: a row that matches the
    name has a time stamp and sets it, any other row keeps what was there. *)
Lemma mtime_row_ok filename (x : node) (m m' : option timestamp) :
  File.mtime_row filename x m = Ok m' ->
  if row_matches filename x
  then exists tm, row_time x = Some tm /\ m' = Some tm
  else m' = m.
Proof.
  unfold File.mtime_row, row_matches, row_time, listed, row_alt, row_link_text,
    Directory.row_selected, Directory.nth_td, Directory.anchor_string,
    subscript, rbind.
  intros H. repeat (case_match; simplify_eq/=); eauto; try congruence;
    repeat match goal with
           | H : _ && _ = _ |- _ => rewrite ?andb_true_iff, ?andb_false_iff in H
           end; intuition congruence.
Qed.

Lemma mtime_loop_ok filename (rows : list node) (m m' : option timestamp) :
  File.mtime_loop filename rows m = Ok m' ->
  match last (List.filter (row_matches filename) rows) with
  | Some x => exists tm, row_time x = Some tm /\ m' = Some tm
  | None => m' = m
  end.
Proof.
  revert m. induction rows as [|x rows IH]; intros m H; simpl in *.
  - congruence.
  - unfold rbind in H.
    destruct (File.mtime_row filename x m) as [m1|] eqn:Hx; [|discriminate].
    apply mtime_row_ok in Hx. apply IH in H.
    destruct (row_matches filename x) eqn:Hmx.
    + rewrite last_cons. destruct (last _); [exact H|].
      destruct Hx as (tm & Htm & ->). exists tm. auto.
    + subst m1. exact H.
Qed.

(** C4 (as amended): a file whose probe is answered with 200 and no
    [Last-Modified] header gets the clock reading of the call as [mtime] and
    its size from [Content-Length]; the probe is the last request of the
    call, the listing is not fetched again. *)
Theorem file_without_last_modified_gets_clock
    now root path dm (st : state File.readdir_cache) f st' :
  File.init now root path dm st = (Ok f, st') ->
  File.is_dir f = false ->
  status_code (File.r f) = 200 ->
  header_lookup "Last-Modified" (headers (File.r f)) = None ->
  File.mtime f = Some now /\
  File.size_of_headers (headers (File.r f)) = Ok (File.size f) /\
  exists tr, trace st' = tr ++ [Request HEAD (File.url f) []].
Proof.
  intros Hinit Hdir Hs Hlm.
  apply init_ok in Hinit as ([tr1 cache1] & _ & Hp).
  apply probe_ok in Hp as (l & Hl & Hd & Hu & Hr & _ & H).
  rewrite Hs in H. simpl in H. destruct H as [Hsz Hm].
  unfold File.mtime_of_headers in Hm. rewrite Hlm in Hm.
  rewrite <- Hd, Hdir in Hm. simpl in Hm. destruct Hm as [Hm Htr].
  split; [exact Hm|]. split; [exact Hsz|].
  exists tr1. rewrite Htr, Hu. unfold probe_request. simpl.
  rewrite <- Hd, Hdir. reflexivity.
Qed.

(** C5 (as amended): a directory whose probe is answered with 200 and no
    [Last-Modified] header gets, without [dirmtime], the clock reading of the
    call as [mtime]; with [dirmtime] the page of the parent is fetched again,
    as the last request of the call, and [mtime] is the time stamp of the
    last of its rows whose link text contains the name, which that row then
    has; it is absent exactly when no row matches. *)
Theorem directory_without_last_modified
    now root path dm (st : state File.readdir_cache) f st' :
  File.init now root path dm st = (Ok f, st') ->
  File.is_dir f = true ->
  status_code (File.r f) = 200 ->
  header_lookup "Last-Modified" (headers (File.r f)) = None ->
  if dm then
    exists tr,
      let rq := listing_request root (File.parent_dir_of path) in
      let rows := find_all "tr" (BeautifulSoup (text (session_send tr rq))) in
      trace st' = tr ++ [rq] /\
      File.mtime f = listed_mtime (File.filename_of path) rows /\
      (File.mtime f = None <->
       List.filter (row_matches (File.filename_of path)) rows = []) /\
      (forall x, last (List.filter (row_matches (File.filename_of path)) rows) = Some x ->
                 exists tm, row_time x = Some tm /\ File.mtime f = Some tm)
  else File.mtime f = Some now.
Proof.
  intros Hinit Hdir Hs Hlm.
  apply init_ok in Hinit as ([tr1 cache1] & _ & Hp).
  apply probe_ok in Hp as (l & Hl & Hd & Hu & Hr & _ & H).
  rewrite Hs in H. simpl in H. destruct H as [Hsz Hm].
  unfold File.mtime_of_headers in Hm. rewrite Hlm in Hm.
  rewrite <- Hd, Hdir in Hm. simpl in Hm.
  destruct dm; simpl in Hm.
  - destruct Hm as [Htr Hloop].
    exists (tr1 ++ [probe_request root path true]). cbv zeta.
    rewrite <- app_assoc. simpl app. split; [exact Htr|].
    apply mtime_loop_ok in Hloop. unfold listed_mtime.
    destruct (last (List.filter _ _)) as [x|] eqn:Hlast.
    + destruct Hloop as (tm & Htm & Hmt). rewrite Hmt, Htm.
      split; [reflexivity|]. split.
      * split; [discriminate|]. intros Hnil. rewrite Hnil in Hlast. discriminate.
      * intros y [= <-]. exists tm. auto.
    + split; [exact Hloop|]. split.
      * split; [|intros _; exact Hloop]. intros _. apply last_None, Hlast.
      * intros y Hy. discriminate.
  - destruct Hm as [Hm _]. exact Hm.
Qed.

(** *** The listing cache across calls *)

Lemma append_inj_l (s a b : string) : s +:+ a = s +:+ b -> a = b.
Proof. induction s as [|c s IH]; simpl; [auto|]. intros H. injection H. auto. Qed.

Lemma append_slash_inj (a b : string) : a +:+ "/" = b +:+ "/" -> a = b.
Proof.
  revert b. induction a as [|c a IH]; intros [|d b]; simpl; intros H.
  - reflexivity.
  - injection H as _ H. destruct b; discriminate.
  - injection H as _ H. destruct a; discriminate.
  - injection H as -> H. f_equal. auto.
Qed.

Lemma listing_url_inj (root p q : string) :
  Directory.listing_url root p = Directory.listing_url root q -> p = q.
Proof.
  unfold Directory.listing_url. intros H.
  apply append_inj_l in H. simpl in H. injection H as H.
  apply append_slash_inj, H.
Qed.

Lemma is_listing_get_listing (root q p : string) :
  is_listing_get root q (listing_request root p) = String.eqb p q.
Proof.
  unfold is_listing_get, listing_request. simpl.
  destruct (String.eqb_spec p q) as [->|Hne].
  - apply String.eqb_refl.
  - apply String.eqb_neq. intros H. apply Hne, (listing_url_inj _ _ _ H).
Qed.

Lemma listing_gets_app (root q : string) (a b : list request) :
  listing_gets root q (a ++ b)
    = (listing_gets root q a + listing_gets root q b)%nat.
Proof. unfold listing_gets. rewrite List.filter_app, length_app. reflexivity. Qed.

(** One call: what it sends and what it does to the cache. *)
Lemma init_requests now root path dm tr cache :
  let p := File.parent_dir_of path in
  let st' := snd (File.init now root path dm (State tr cache)) in
  (forall k l, cache !! k = Some l -> obj st' !! k = Some l) /\
  exists pop prb,
    trace st' = tr ++ pop ++ prb /\
    match cache !! p with
    | Some _ => pop = [] /\ obj st' = cache
    | None => pop = [listing_request root p]
    end /\
    (prb = [] \/ (exists d, prb = [probe_request root path d]) \/
     (exists d, prb = [probe_request root path d; listing_request root p] /\ dm = true)).
Proof.
  intros p. unfold File.init, bind. fold p.
  destruct (cache !! p) as [l|] eqn:Hp.
  - rewrite (populate_cached _ _ _ _ _ Hp).
    destruct (probe_state now root path dm tr cache) as [Hobj Htr].
    fold p in Htr. rewrite Hp in Htr. simpl in Htr.
    destruct (File.probe now root path dm (State tr cache)) as [[f|e] st1];
      simpl in *; subst.
    all: split; [auto|]; exists [];
      destruct Htr as [Htr|(Htr & Hdm & _)]; eexists; rewrite Htr; eauto 10.
  - rewrite (populate_uncached _ _ _ _ Hp).
    destruct (Directory.contents_of_soup _) as [c|e]; simpl.
    + destruct (probe_state now root path dm (tr ++ [listing_request root p])
                  (<[p := c]> cache)) as [Hobj Htr].
      fold p in Htr. rewrite lookup_insert_eq in Htr. simpl in Htr.
      destruct (File.probe now root path dm _) as [[f|e] st1]; simpl in *; subst.
      all: split;
        [intros k l Hk; rewrite Hobj, lookup_insert_ne; [exact Hk|congruence]|];
        exists [listing_request root p];
        destruct Htr as [Htr|(Htr & Hdm & _)]; eexists; rewrite Htr, <- app_assoc;
        eauto 10.
    + split; [auto|]. exists [listing_request root p], [].
      rewrite app_nil_r. auto.
Qed.

(** One call, seen from a directory [q] whose listing is cached: the listing
    stays, and the call sends at most one GET for the page of [q], and only
    when it runs with [dirmtime] on a path whose parent is [q]. *)
Lemma init_keeps_listing now root path dm tr cache q l :
  cache !! q = Some l ->
  let st' := snd (File.init now root path dm (State tr cache)) in
  obj st' !! q = Some l /\
  (listing_gets root q tr <= listing_gets root q (trace st'))%nat /\
  (listing_gets root q (trace st') <=
     listing_gets root q tr
     + (if dm && String.eqb (File.parent_dir_of path) q then 1 else 0))%nat.
Proof.
  intros Hq.
  destruct (init_requests now root path dm tr cache) as (Hkeep & pop & prb & Htr & Hpop & Hprb).
  simpl. split; [apply Hkeep, Hq|].
  rewrite Htr, !listing_gets_app.
  assert (Hp0 : listing_gets root q pop = 0%nat).
  { destruct (cache !! File.parent_dir_of path) as [l'|] eqn:Hp.
    - destruct Hpop as [-> _]. reflexivity.
    - subst pop. unfold listing_gets. simpl. rewrite is_listing_get_listing.
      destruct (String.eqb_spec (File.parent_dir_of path) q) as [Heq|_];
        [congruence|reflexivity]. }
  rewrite Hp0.
  destruct Hprb as [->|[(d & ->)|(d & -> & ->)]].
  - unfold listing_gets. simpl. lia.
  - unfold listing_gets. simpl. lia.
  - unfold listing_gets. simpl. rewrite is_listing_get_listing.
    destruct (String.eqb (File.parent_dir_of path) q); simpl; lia.
Qed.

Lemma run_inits_cons root (c : timestamp * string * bool) calls
    (st : state File.readdir_cache) :
  run_inits root (c :: calls) st
    = run_inits root calls (snd (File.init (fst (fst c)) root (snd (fst c)) (snd c) st)).
Proof. reflexivity. Qed.

(** C6 (as amended): the first call for a directory [p] that returns stores
    the parsed page of [p] in the cache after one GET; once [p] is cached,
    whatever calls follow, its entry list stays as it is, and the only GETs
    for the page of [p] are those of the [mtime] fallback, at most one for
    each call that runs with [dirmtime] on a path whose parent is [p]; so
    calls without [dirmtime] send no GET for the page of [p] at all. *)
Theorem listing_cached_once (root p : string) :
  (forall now path dm (st : state File.readdir_cache) f st',
      File.parent_dir_of path = p ->
      obj st !! p = None ->
      File.init now root path dm st = (Ok f, st') ->
      exists c rest,
        Directory.contents_of_soup
          (BeautifulSoup (text (session_send (trace st) (listing_request root p)))) = Ok c /\
        obj st' !! p = Some c /\
        trace st' = trace st ++ listing_request root p :: rest) /\
  (forall l calls (st : state File.readdir_cache),
      obj st !! p = Some l ->
      let st' := run_inits root calls st in
      obj st' !! p = Some l /\
      (listing_gets root p (trace st) <= listing_gets root p (trace st'))%nat /\
      (listing_gets root p (trace st') <=
         listing_gets root p (trace st)
         + List.length (List.filter (refetching p) calls))%nat).
Proof.
  split.
  - intros now path dm [tr cache] f st' Hpath Hnone Hinit. simpl in *.
    apply init_ok in Hinit as (st1 & Hpop & Hprobe). rewrite Hpath in Hpop.
    rewrite (populate_uncached _ _ _ _ Hnone) in Hpop.
    destruct (Directory.contents_of_soup _) as [c|e]; [|discriminate].
    injection Hpop as <-.
    exists c.
    destruct (probe_state now root path dm (tr ++ [listing_request root p])
                (<[p := c]> cache)) as [Hobj Htr].
    rewrite Hprobe in Hobj, Htr. simpl in Hobj, Htr.
    rewrite Hpath, lookup_insert_eq in Htr. simpl in Htr.
    destruct Htr as [Htr|(Htr & _)]; eexists; rewrite Hobj, Htr, lookup_insert_eq,
      <- app_assoc; simpl; auto.
  - intros l calls. induction calls as [|[[now path] dm] calls IH]; intros [tr cache] Hl.
    + simpl. split; [exact Hl|]. lia.
    + cbv zeta. rewrite run_inits_cons. cbn [fst snd obj trace] in *.
      destruct (init_keeps_listing now root path dm tr cache p l Hl) as (Hk & Hlo & Hhi).
      cbv zeta in Hk, Hlo, Hhi.
      destruct (File.init now root path dm (State tr cache)) as [res [tr1 cache1]].
      cbn [snd obj trace] in *.
      destruct (IH (State tr1 cache1) Hk) as (Hk' & Hlo' & Hhi').
      cbn [obj trace] in Hlo', Hhi'.
      split; [exact Hk'|].
      cbn [List.filter]. unfold refetching at 1. cbn [fst snd].
      destruct (dm && String.eqb (File.parent_dir_of path) p); cbn [List.length]; lia.
Qed.

End InitFacts.

(** *** The calls of the specification's scenarios, on the concrete site *)

Lemma file_without_last_modified_gets_clock_witness :
  File.init (E := Fixture.env) Fixture.now "http://host" "notes.txt" false
    (Fixture.fresh ∅)
    = (Ok Fixture.notes,
       State [listing_request "http://host" "";
              probe_request "http://host" "notes.txt" false]
             {[ "" := Fixture.root_listing ]}) /\
  File.mtime Fixture.notes = Some Fixture.now /\
  File.size_of_headers (E := Fixture.env) (headers (File.r Fixture.notes)) = Ok 500000.
Proof.
  assert (H : File.init (E := Fixture.env) Fixture.now "http://host" "notes.txt" false
                (Fixture.fresh ∅)
              = (Ok Fixture.notes,
                 State [listing_request "http://host" "";
                        probe_request "http://host" "notes.txt" false]
                       {[ "" := Fixture.root_listing ]}))
    by (vm_compute; reflexivity).
  split; [exact H|].
  destruct (file_without_last_modified_gets_clock (E := Fixture.env) _ _ _ _ _ _ _ H)
    as (Hm & Hs & _); [reflexivity | reflexivity | reflexivity |].
  split; [exact Hm | exact Hs].
Defined.

(** C4, as stated, fails on its own scenario: [notes.txt] is listed with the
    time stamp 2023-06-01 10:00 (1685613600), its probe is answered with
    200, [Content-Length: 500000] and no [Last-Modified]; the call sends the
    listing request once and the probe, and with or without [dirmtime] its
    [mtime] is the clock reading of the call (1700000000), not the time stamp
    of the listing. *)
Lemma notes_mtime_is_not_the_listing_time :
  listed_mtime (E := Fixture.env) "notes.txt" (find_all "tr" Fixture.index_page)
    = Some 1685613600 /\
  File.init (E := Fixture.env) Fixture.now "http://host" "notes.txt" false
    (Fixture.fresh ∅)
    = (Ok Fixture.notes,
       State [listing_request "http://host" "";
              probe_request "http://host" "notes.txt" false]
             {[ "" := Fixture.root_listing ]}) /\
  result_map File.mtime
    (fst (File.init (E := Fixture.env) Fixture.now "http://host" "notes.txt" true
            (Fixture.fresh ∅)))
    = Ok (Some 1700000000) /\
  File.is_dir Fixture.notes = false /\
  status_code (File.r Fixture.notes) = 200 /\
  header_lookup "Last-Modified" (headers (File.r Fixture.notes)) = None /\
  File.size Fixture.notes = 500000 /\
  File.mtime Fixture.notes = Some 1700000000 /\
  File.mtime Fixture.notes <> Some 1685613600.
Proof.
  split; [vm_compute; reflexivity|].
  split; [vm_compute; reflexivity|].
  split; [vm_compute; reflexivity|].
  repeat split; try reflexivity; discriminate.
Qed.

Lemma directory_without_last_modified_witness :
  File.init (E := Fixture.env) Fixture.now "http://host" "docs" true (Fixture.fresh ∅)
    = (Ok Fixture.docs,
       State [listing_request "http://host" "";
              probe_request "http://host" "docs" true;
              listing_request "http://host" ""]
             {[ "" := Fixture.root_listing ]}) /\
  exists tr,
    let rq := listing_request "http://host" "" in
    let rows := find_all "tr" (BeautifulSoup (Env := Fixture.env)
                                 (text (session_send (Env := Fixture.env) tr rq))) in
    [listing_request "http://host" ""; probe_request "http://host" "docs" true;
     listing_request "http://host" ""] = tr ++ [rq] /\
    File.mtime Fixture.docs = listed_mtime (E := Fixture.env) "docs" rows /\
    (File.mtime Fixture.docs = None <->
     List.filter (row_matches "docs") rows = []) /\
    (forall x, last (List.filter (row_matches "docs") rows) = Some x ->
               exists tm, row_time (E := Fixture.env) x = Some tm /\
                          File.mtime Fixture.docs = Some tm).
Proof.
  assert (H : File.init (E := Fixture.env) Fixture.now "http://host" "docs" true
                (Fixture.fresh ∅)
              = (Ok Fixture.docs,
                 State [listing_request "http://host" "";
                        probe_request "http://host" "docs" true;
                        listing_request "http://host" ""]
                       {[ "" := Fixture.root_listing ]}))
    by (vm_compute; reflexivity).
  split; [exact H|].
  exact (directory_without_last_modified (E := Fixture.env) _ _ _ true _ _ _ H
           eq_refl eq_refl eq_refl).
Defined.

(** C5, as stated, fails on the directory [docs] of the site: its probe is
    answered with 200 and no [Last-Modified], and with [dirmtime] the call
    returns the time stamp of its row of the listing, 2023-06-01 10:00, as
    [mtime], not an absent one. *)
Lemma docs_mtime_is_set_with_dirmtime :
  exists st',
    File.init (E := Fixture.env) Fixture.now "http://host" "docs" true (Fixture.fresh ∅)
      = (Ok Fixture.docs, st') /\
    File.is_dir Fixture.docs = true /\
    status_code (File.r Fixture.docs) = 200 /\
    header_lookup "Last-Modified" (headers (File.r Fixture.docs)) = None /\
    File.mtime Fixture.docs = Some 1685613600 /\
    File.mtime Fixture.docs <> None.
Proof.
  exists (State [listing_request "http://host" "";
                 probe_request "http://host" "docs" true;
                 listing_request "http://host" ""]
                {[ "" := Fixture.root_listing ]}).
  split; [vm_compute; reflexivity|].
  repeat split; try reflexivity; discriminate.
Qed.

Lemma listing_cached_once_witness :
  let st0 := Fixture.fresh (∅ : File.readdir_cache) in
  let st := snd (File.init (E := Fixture.env) Fixture.now "http://host" "notes.txt"
                   false st0) in
  let calls := [(Fixture.now, "docs", false); (Fixture.now, "hello.txt", false);
                (Fixture.now, "notes.txt", false)] in
  (exists c rest,
      Directory.contents_of_soup Fixture.index_page = Ok c /\
      obj st !! "" = Some c /\
      trace st = listing_request "http://host" "" :: rest) /\
  obj (run_inits (E := Fixture.env) "http://host" calls st) !! "" = Some Fixture.root_listing /\
  listing_gets "http://host" "" (trace (run_inits (E := Fixture.env) "http://host" calls st))
    = 1%nat.
Proof.
  intros st0 st calls.
  destruct (listing_cached_once (E := Fixture.env) "http://host" "") as [H1 H].
  split.
  - apply (H1 Fixture.now "notes.txt" false st0 Fixture.notes st);
      [reflexivity | reflexivity | vm_compute; reflexivity].
  - destruct (H Fixture.root_listing calls st) as (Hk & Hlo & Hhi);
      [vm_compute; reflexivity|].
    split; [exact Hk|].
    change (listing_gets "http://host" "" (trace st)) with 1%nat in Hlo, Hhi.
    change (List.length (List.filter (refetching "") calls)) with 0%nat in Hhi.
    lia.
Defined.

(** C6, as stated, fails on two calls for the directory [docs] with
    [dirmtime]: the page of the root is fetched three times, once to fill the
    cache and once more in each call for the time stamp of [docs]. *)
Lemma listing_fetched_again_with_dirmtime :
  listing_gets "http://host" ""
    (trace (run_inits (E := Fixture.env) "http://host"
              [(Fixture.now, "docs", true); (Fixture.now, "docs", true)]
              (Fixture.fresh ∅)))
    = 3%nat.
Proof. vm_compute. reflexivity. Qed.

(** The white space [str.strip()] removes includes the characters outside
    ASCII: a date cell that ends with a no-break space (U+00A0, the bytes C2
    A0) or starts with an em space (U+2003, the bytes E2 80 83) is read like
    the bare date, and a letter whose last byte is A0 is kept. *)
Lemma strip_space_unicode :
  let nbsp := String (ascii_of_nat 0xC2) (String (ascii_of_nat 0xA0) "") in
  let emsp := String (ascii_of_nat 0xE2)
                (String (ascii_of_nat 0x80) (String (ascii_of_nat 0x83) "")) in
  let g_dot := String (ascii_of_nat 0xC4) (String (ascii_of_nat 0xA0) "") in
  strip_space (emsp +:+ " 2023-06-01 10:00 " +:+ nbsp) = "2023-06-01 10:00" /\
  row_time (E := Fixture.env) (Fixture.row "[DIR]" "docs/" ("2023-06-01 10:00" +:+ nbsp))
    = Some 1685613600 /\
  strip_space (" x" +:+ g_dot +:+ " ") = "x" +:+ g_dot.
Proof. repeat split; vm_compute; reflexivity. Qed.

(** * Further properties of the code *)

(** ** Slices *)

Lemma slice_lookup {A : Type} (l : list A) (i j : Z) (k : nat) :
  0 <= i -> 0 <= j ->
  slice l i j !! k
    = if decide (Z.of_nat k < j - i) then l !! (Z.to_nat i + k)%nat else None.
Proof.
  intros Hi Hj. unfold slice, clamp_index. cbv zeta.
  destruct (Z.ltb_spec i 0) as [?|_]; [lia|].
  destruct (Z.ltb_spec j 0) as [?|_]; [lia|].
  rewrite lookup_take, lookup_drop.
  set (n := Z.of_nat (List.length l)).
  destruct (decide (Z.of_nat k < j - i)) as [Hk|Hk].
  - destruct (decide (k < Z.to_nat (j `min` n - i `min` n))%nat) as [Hk'|Hk'].
    + f_equal. lia.
    + symmetry. apply lookup_ge_None_2. subst n. lia.
  - destruct (decide (k < Z.to_nat (j `min` n - i `min` n))%nat) as [Hk'|Hk'];
      [lia|reflexivity].
Qed.

Lemma slice_length_le {A : Type} (l : list A) (i j : Z) :
  0 <= i -> i <= j -> Z.of_nat (List.length (slice l i j)) <= j - i.
Proof.
  intros Hi Hj. unfold slice, clamp_index. cbv zeta.
  destruct (Z.ltb_spec i 0) as [?|_]; [lia|].
  destruct (Z.ltb_spec j 0) as [?|_]; [lia|].
  rewrite length_take. lia.
Qed.

Lemma slice_slice {A : Type} (l : list A) (a b i j : Z) :
  0 <= a -> 0 <= i -> 0 <= j -> a + j <= b ->
  slice (slice l a b) i j = slice l (a + i) (a + j).
Proof.
  intros Ha Hi Hj Hb. apply list_eq. intros k.
  rewrite !slice_lookup by lia.
  destruct (decide (Z.of_nat k < j - i)) as [Hk|Hk].
  - rewrite decide_True by lia. rewrite decide_True by lia. f_equal. lia.
  - rewrite decide_False by lia. reflexivity.
Qed.

(** ** More on [File.read] *)

Lemma mb_end_div (offset length : Z) :
  mb_end offset length = (offset + length) / blockSize.
Proof.
  unfold mb_end, blockSize. change 1048576 with (1024 * 1024).
  rewrite Z.div_div by lia. reflexivity.
Qed.

Lemma inside_block_iff (offset length : Z) :
  0 <= length ->
  mb_start offset = mb_end offset length <->
  offset_from_mb offset + length < 1048576.
Proof.
  intros Hl. rewrite mb_start_div, mb_end_div, offset_from_mb_mod.
  unfold blockSize.
  pose proof (Z.div_mod offset 1048576 ltac:(lia)) as Hdm.
  pose proof (Z.mod_pos_bound offset 1048576 ltac:(lia)) as Hb.
  set (q := offset / 1048576) in *. set (r := offset mod 1048576) in *.
  replace (offset + length) with (q * 1048576 + (r + length)) by lia.
  rewrite Z.div_add_l by lia.
  split.
  - intros H. assert (H0 : (r + length) / 1048576 = 0) by lia.
    apply Z.div_small_iff in H0; lia.
  - intros H. rewrite Z.div_small by lia. lia.
Qed.

Section ReadMore.

Context {timestamp : Type} `{E : Env timestamp}.

Implicit Types (self : @File.t timestamp) (rb : File.readbuffer) (tr : list request).

(** X1: a read of non-negative length is served through the block cache exactly
    when it ends before the end of the block it starts in; a read that ends
    on the boundary of a block, such as the read of one whole aligned block,
    is a read that spans blocks. *)
Theorem read_inside_block_iff (offset length k : Z) :
  0 <= length ->
  (mb_start offset = mb_end offset length <->
   offset_from_mb offset + length < 1048576) /\
  mb_start (k * 1048576) <> mb_end (k * 1048576) 1048576.
Proof.
  intros Hl. split; [apply inside_block_iff, Hl|].
  intros H. apply inside_block_iff in H; [|lia].
  rewrite offset_from_mb_mod in H. unfold blockSize in H.
  rewrite Z.mod_mul in H by lia. lia.
Qed.

(** X2: a read inside one block that returns never returns more bytes than were
    asked for. *)
Theorem read_inside_block_at_most_length self length offset
    (st : state File.readbuffer) (data : list byte) :
  0 <= length ->
  mb_start offset = mb_end offset length ->
  fst (File.read self length offset st) = Ok data ->
  Z.of_nat (List.length data) <= length.
Proof.
  intros Hl Hmb. destruct st as [tr rb].
  pose proof (Z.mod_pos_bound offset 1048576 ltac:(lia)) as Hb.
  pose proof (offset_from_mb_mod offset) as Hm. unfold blockSize in Hm.
  assert (Hs : forall block : list byte,
             Z.of_nat (List.length (slice block (offset_from_mb offset)
                                      (offset_from_mb offset + length))) <= length).
  { intros block.
    pose proof (slice_length_le block (offset_from_mb offset)
                  (offset_from_mb offset + length)). lia. }
  destruct (cached rb (mb_start offset)) as [block|] eqn:Hc.
  - assert (Hk : rb !! mb_start offset = Some (Some block)).
    { unfold cached in Hc. destruct (rb !! mb_start offset) as [[b|]|]; congruence. }
    rewrite (read_cached _ _ _ _ _ _ Hmb Hk). simpl. intros [= <-]. apply Hs.
  - destruct (success (status_code (session_send tr (block_request self (mb_start offset)))))
      eqn:Hok.
    + rewrite (read_uncached_ok _ _ _ _ _ Hmb Hc Hok). simpl. intros [= <-]. apply Hs.
    + rewrite (read_uncached_fail _ _ _ _ _ Hmb Hc Hok). discriminate.
Qed.

(** X3: when the server answers the block request with the bytes of the range it
    was asked for (the 1047553 bytes from the start of the block, fewer at
    the end of the file), a read that stays within those bytes returns
    exactly the bytes of the file from [offset] to [offset + length], fewer
    only at the end of the file. *)
Theorem read_returns_bytes_of_file self length offset tr rb (data : list byte) :
  0 <= offset -> 0 <= length ->
  offset_from_mb offset + length <= 1047553 ->
  cached rb (mb_start offset) = None ->
  success (status_code (session_send tr (block_request self (mb_start offset)))) = true ->
  content (session_send tr (block_request self (mb_start offset)))
    = slice data (mb_start offset * 1048576) (mb_start offset * 1048576 + 1047553) ->
  fst (File.read self length offset (State tr rb))
    = Ok (slice data offset (offset + length)).
Proof.
  intros Ho Hl Hin Hc Hok Hdata.
  assert (Hmb : mb_start offset = mb_end offset length)
    by (apply inside_block_iff; lia).
  rewrite (read_uncached_ok _ _ _ _ _ Hmb Hc Hok). simpl. f_equal.
  rewrite Hdata.
  pose proof (Z.mod_pos_bound offset 1048576 ltac:(lia)) as Hb.
  pose proof (offset_from_mb_mod offset) as Hm. unfold blockSize in Hm.
  pose proof (mb_start_div offset) as Hd. unfold blockSize in Hd.
  pose proof (Z.div_mod offset 1048576 ltac:(lia)) as Hdm.
  pose proof (Z.div_pos offset 1048576 Ho ltac:(lia)) as Hq.
  rewrite slice_slice by lia.
  f_equal; lia.
Qed.

(** X4: a block fetch that fails is not remembered: the read raises [EIO], the
    block stays out of the cache, and the next read of the region sends the
    same request again. *)
Theorem failed_fetch_is_retried self length offset tr rb :
  mb_start offset = mb_end offset length ->
  cached rb (mb_start offset) = None ->
  success (status_code (session_send tr (block_request self (mb_start offset)))) = false ->
  let rq := block_request self (mb_start offset) in
  let st1 := snd (File.read self length offset (State tr rb)) in
  fst (File.read self length offset (State tr rb)) = Raise (FuseOSError EIO) /\
  cached (obj st1) (mb_start offset) = None /\
  trace st1 = tr ++ [rq] /\
  trace (snd (File.read self length offset st1)) = tr ++ [rq; rq].
Proof.
  intros Hmb Hc Hok rq st1. subst st1 rq.
  rewrite (read_uncached_fail _ _ _ _ _ Hmb Hc Hok). cbn [fst snd trace obj].
  assert (Hc1 : cached (<[mb_start offset := None]> rb) (mb_start offset) = None).
  { unfold cached. rewrite lookup_insert_eq. reflexivity. }
  split; [reflexivity|]. split; [exact Hc1|]. split; [reflexivity|].
  destruct (success (status_code (session_send (tr ++ [block_request self (mb_start offset)])
                                    (block_request self (mb_start offset)))))
    eqn:Hok2.
  - rewrite (read_uncached_ok _ _ _ _ _ Hmb Hc1 Hok2). cbn [snd trace].
    rewrite <- app_assoc. reflexivity.
  - rewrite (read_uncached_fail _ _ _ _ _ Hmb Hc1 Hok2). cbn [snd trace].
    rewrite <- app_assoc. reflexivity.
Qed.

(** X5: a read that spans blocks sends exactly one request, a GET of the URL of
    the file with the range from [offset] to the smaller of the size and
    [offset + length - 1], whatever the cache holds, and stores nothing: the
    same read again sends the same request again. *)
Theorem spanning_read_sends_one_request self length offset tr rb :
  mb_start offset <> mb_end offset length ->
  let rq := Request GET (File.root self +:+ "/" +:+ File.path self)
              [("range", "bytes=" +:+ File.str_of_int offset +:+ "-" +:+
                         File.str_of_int (Z.min (File.size self) (offset + length - 1)))] in
  let st1 := snd (File.read self length offset (State tr rb)) in
  st1 = State (tr ++ [rq]) rb /\
  snd (File.read self length offset st1) = State (tr ++ [rq; rq]) rb.
Proof.
  intros Hmb rq st1. subst st1.
  rewrite (read_span _ _ _ _ _ Hmb). cbn [snd]. split; [reflexivity|].
  rewrite (read_span _ _ _ _ _ Hmb). cbn [snd]. rewrite <- app_assoc. reflexivity.
Qed.

(** X6: a read adds at most the index of the block it starts in to the keys of
    the buffer, and removes none. *)
Theorem read_adds_only_its_block self length offset (st : state File.readbuffer) :
  let st1 := snd (File.read self length offset st) in
  dom (obj st) ⊆ dom (obj st1) /\
  dom (obj st1) ⊆ dom (obj st) ∪ {[ mb_start offset ]} /\
  (mb_start offset = mb_end offset length -> mb_start offset ∈ dom (obj st1)).
Proof.
  destruct st as [tr rb]. simpl.
  destruct (decide (mb_start offset = mb_end offset length)) as [Hmb|Hmb].
  - destruct (cached rb (mb_start offset)) as [block|] eqn:Hc.
    + assert (Hk : rb !! mb_start offset = Some (Some block)).
      { unfold cached in Hc. destruct (rb !! mb_start offset) as [[b|]|]; congruence. }
      rewrite (read_cached _ _ _ _ _ _ Hmb Hk). simpl.
      split; [set_solver|]. split; [set_solver|].
      intros _. apply elem_of_dom. eauto.
    + destruct (success (status_code (session_send tr (block_request self (mb_start offset)))))
        eqn:Hok.
      * rewrite (read_uncached_ok _ _ _ _ _ Hmb Hc Hok). simpl.
        rewrite dom_insert_L.
        split; [apply union_subseteq_r|]. split; [rewrite (comm_L union); reflexivity|].
        intros _. apply elem_of_union_l, elem_of_singleton. reflexivity.
      * rewrite (read_uncached_fail _ _ _ _ _ Hmb Hc Hok). simpl.
        rewrite dom_insert_L.
        split; [apply union_subseteq_r|]. split; [rewrite (comm_L union); reflexivity|].
        intros _. apply elem_of_union_l, elem_of_singleton. reflexivity.
  - rewrite (read_span _ _ _ _ _ Hmb). simpl. set_solver.
Qed.

End ReadMore.

Lemma read_inside_block_iff_witness :
  mb_start 1048000 = mb_end 1048000 100 /\ mb_start 1048576 <> mb_end 1048576 1048576.
Proof.
  destruct (read_inside_block_iff 1048000 100 1) as [H1 H2]; [lia|].
  split; [apply H1; vm_compute; reflexivity | exact H2].
Defined.

Lemma read_inside_block_at_most_length_witness :
  Z.of_nat (List.length [x65; x6c; x6c]) <= 3.
Proof.
  apply (read_inside_block_at_most_length (E := Fixture.env) Fixture.hello 3 1
           (Fixture.fresh ∅) [x65; x6c; x6c]);
    [lia | reflexivity | vm_compute; reflexivity].
Defined.

Lemma read_returns_bytes_of_file_witness :
  fst (File.read (E := Fixture.env) Fixture.hello 3 1 (State [] ∅))
    = Ok (slice Fixture.hello_data 1 (1 + 3)).
Proof.
  apply (read_returns_bytes_of_file (E := Fixture.env) Fixture.hello 3 1 [] ∅
           Fixture.hello_data);
    [lia | lia | vm_compute; discriminate | reflexivity
     | vm_compute; reflexivity | vm_compute; reflexivity].
Defined.

Lemma failed_fetch_is_retried_witness :
  fst (File.read (E := Fixture.env) Fixture.flaky 10 0 (State [] ∅))
    = Raise (FuseOSError EIO) /\
  trace (snd (File.read (E := Fixture.env) Fixture.flaky 10 0
                (snd (File.read (E := Fixture.env) Fixture.flaky 10 0 (State [] ∅)))))
    = [] ++ [block_request Fixture.flaky (mb_start 0);
             block_request Fixture.flaky (mb_start 0)].
Proof.
  destruct (failed_fetch_is_retried (E := Fixture.env) Fixture.flaky 10 0 [] ∅)
    as (H1 & _ & _ & H4); [reflexivity | reflexivity | vm_compute; reflexivity |].
  split; [exact H1 | exact H4].
Defined.

Lemma spanning_read_sends_one_request_witness :
  snd (File.read (E := Fixture.env) Fixture.hello 2000000 0 (State [] ∅))
    = State [Request GET "http://host/hello.txt" [("range", "bytes=0-5")]] ∅.
Proof.
  destruct (spanning_read_sends_one_request (E := Fixture.env) Fixture.hello 2000000 0 [] ∅)
    as [H _]; [vm_compute; discriminate|].
  rewrite H. reflexivity.
Defined.

Lemma read_adds_only_its_block_witness :
  (0 : Z) ∈ dom (obj (snd (File.read (E := Fixture.env) Fixture.hello 3 1 (State [] ∅)))).
Proof.
  destruct (read_adds_only_its_block (E := Fixture.env) Fixture.hello 3 1 (State [] ∅))
    as (_ & _ & H).
  apply H. reflexivity.
Defined.

(** ** More on [Directory.contents] *)

Lemma starts_with_lstrip (p : ascii -> bool) (s : string) :
  starts_with p (lstrip p s) = false.
Proof.
  induction s as [|a s IH]; simpl; [reflexivity|].
  destruct (p a) eqn:Ha; [exact IH|]. simpl. exact Ha.
Qed.

Lemma ends_with_rstrip (p : ascii -> bool) (s : string) :
  ends_with p (rstrip p s) = false.
Proof.
  induction s as [|a s IH]; simpl; [reflexivity|].
  destruct (rstrip p s) as [|b r] eqn:Hr.
  - destruct (p a) eqn:Ha; simpl; [reflexivity|exact Ha].
  - simpl in *. exact IH.
Qed.

Lemma ends_with_lstrip (p : ascii -> bool) (s : string) :
  ends_with p s = false -> ends_with p (lstrip p s) = false.
Proof.
  induction s as [|a s IH]; intros H; cbn [lstrip]; [exact H|].
  destruct (p a) eqn:Ha; [|exact H].
  apply IH. destruct s as [|b s]; [reflexivity|exact H].
Qed.

Lemma strip_clean (p : ascii -> bool) (s : string) :
  starts_with p (strip p s) = false /\ ends_with p (strip p s) = false.
Proof.
  unfold strip. split; [apply starts_with_lstrip|].
  apply ends_with_lstrip, ends_with_rstrip.
Qed.

Section DirectoryMore.

Context {timestamp : Type} `{E : Env timestamp}.

Lemma contents_loop_no_defect (rows : list node) (acc : list Directory.entry) :
  first_defect rows = None ->
  Directory.contents_loop rows acc
    = Ok (acc ++ List.map entry_stripped (List.filter listed rows)).
Proof.
  unfold first_defect. revert acc.
  induction rows as [|x rows IH]; intros acc Hd; simpl in *.
  - rewrite app_nil_r. reflexivity.
  - destruct (row_defect x) as [e|] eqn:Hx; simpl in Hd; [discriminate|].
    destruct (row_accepted x Hx) as [Hsel Hentry].
    unfold rbind. rewrite Hsel.
    destruct (listed x) eqn:Hl.
    + rewrite (Hentry eq_refl). rewrite (IH _ Hd).
      simpl. rewrite <- app_assoc. reflexivity.
    + apply (IH _ Hd).
Qed.

(** X7: the parse of a page is all or nothing: it raises the exception of the
    first defective row, and on a page without defective row it returns the
    two dot entries and one entry for each listed row, in the order of the
    page, whose name is the link text with the separators taken off both
    ends. *)
Theorem contents_all_or_nothing (parsed : node) :
  Directory.contents_of_soup parsed =
    match first_defect (find_all "tr" parsed) with
    | Some e => Raise e
    | None =>
        Ok ((".", true) :: ("..", true) ::
            List.map entry_stripped (List.filter listed (find_all "tr" parsed)))
    end.
Proof.
  unfold Directory.contents_of_soup.
  destruct (first_defect (find_all "tr" parsed)) as [e|] eqn:Hd.
  - apply contents_loop_defect, Hd.
  - rewrite (contents_loop_no_defect _ _ Hd). reflexivity.
Qed.

(** X8: no name of a listing starts or ends with a separator. *)
Theorem entry_names_have_no_outer_separator (parsed : node) (l : list Directory.entry) :
  Directory.contents_of_soup parsed = Ok l ->
  Forall (fun e => starts_with is_slash (fst e) = false /\
                   ends_with is_slash (fst e) = false) l.
Proof.
  unfold Directory.contents_of_soup. intros H.
  destruct (first_defect (find_all "tr" parsed)) as [e|] eqn:Hd.
  - rewrite (contents_loop_defect _ _ _ Hd) in H. discriminate.
  - rewrite (contents_loop_no_defect _ _ Hd) in H. injection H as <-.
    repeat (apply Forall_cons; split; [split; reflexivity|]).
    apply Forall_forall. intros e He.
    apply list_elem_of_In, in_map_iff in He as (x & <- & _).
    apply strip_clean.
Qed.

End DirectoryMore.

Lemma entry_names_have_no_outer_separator_witness :
  Forall (fun e => starts_with is_slash (fst e) = false /\
                   ends_with is_slash (fst e) = false) Fixture.root_listing.
Proof.
  apply (entry_names_have_no_outer_separator Fixture.index_page). reflexivity.
Defined.

(** ** The split of a path (lines 53-54) *)

Lemma append_assoc (a b c : string) : (a +:+ b) +:+ c = a +:+ (b +:+ c).
Proof.
  induction a as [|x a IH]; [reflexivity|].
  change (String x ((a +:+ b) +:+ c) = String x (a +:+ (b +:+ c))).
  f_equal. exact IH.
Qed.

Lemma split_not_nil (c : ascii) (s : string) : split c s <> [].
Proof.
  induction s as [|a s IH]; simpl; [discriminate|].
  destruct (Ascii.eqb a c); [discriminate|].
  destruct (split c s); discriminate.
Qed.

Lemma join_split (c : ascii) (s : string) :
  join (String c EmptyString) (split c s) = s.
Proof.
  induction s as [|a s IH]; simpl; [reflexivity|].
  destruct (Ascii.eqb_spec a c) as [->|Hne].
  - pose proof (split_not_nil c s) as Hn.
    destruct (split c s) as [|w ws]; [contradiction|].
    change (join (String c "") ("" :: w :: ws))
      with (String c (join (String c "") (w :: ws))).
    rewrite IH. reflexivity.
  - pose proof (split_not_nil c s) as Hn.
    destruct (split c s) as [|w ws]; [contradiction|].
    destruct ws as [|w' ws].
    + simpl in *. rewrite IH. reflexivity.
    + change (join (String c "") (String a w :: w' :: ws))
        with (String a (join (String c "") (w :: w' :: ws))).
      rewrite IH. reflexivity.
Qed.

Lemma split_no_separator (s : string) :
  Forall (fun w => no_separator w = true) (split "/" s).
Proof.
  induction s as [|a s IH]; simpl.
  - repeat constructor.
  - destruct (Ascii.eqb a "/") eqn:Ha.
    + constructor; [reflexivity|exact IH].
    + pose proof (split_not_nil "/" s) as Hn.
      destruct (split "/" s) as [|w ws]; [contradiction|].
      inversion IH as [|? ? Hw Hws]; subst.
      constructor; [|exact Hws]. simpl. unfold is_slash. rewrite Ha, Hw. reflexivity.
Qed.

Lemma split_app_slash (p : string) :
  split "/" (p +:+ "/") = split "/" p ++ [""].
Proof.
  induction p as [|a p IH]; [reflexivity|].
  change (split "/" (String a (p +:+ "/")) = split "/" (String a p) ++ [""]).
  simpl. rewrite IH. destruct (Ascii.eqb a "/"); [reflexivity|].
  pose proof (split_not_nil "/" p) as Hn.
  destruct (split "/" p) as [|w ws]; [contradiction|]. reflexivity.
Qed.

Lemma join_snoc (c : string) (l : list string) (w : string) :
  l <> [] -> join c (l ++ [w]) = join c l +:+ c +:+ w.
Proof.
  induction l as [|a l IH]; intros Hn; [contradiction|].
  destruct l as [|b l].
  - reflexivity.
  - change (join c ((a :: b :: l) ++ [w])) with (a +:+ c +:+ join c ((b :: l) ++ [w])).
    rewrite IH by discriminate.
    change (join c (a :: b :: l)) with (a +:+ c +:+ join c (b :: l)).
    rewrite !append_assoc. reflexivity.
Qed.

Lemma no_separator_app_slash (a b : string) :
  no_separator (a +:+ "/" +:+ b) = false.
Proof.
  induction a as [|x a IH]; [reflexivity|].
  change (negb (is_slash x) && no_separator (a +:+ "/" +:+ b) = false).
  rewrite IH. apply andb_false_r.
Qed.

(** X9: the path is split at its last separator: joining the pieces gives the
    path back, the file name has no separator, a path without separator is
    its own file name in the directory [""], and any other path is its parent
    directory, a separator and its file name. *)
Theorem path_split_round_trip (path : string) :
  join "/" (split "/" path) = path /\
  no_separator (File.filename_of path) = true /\
  if no_separator path
  then File.parent_dir_of path = "" /\ File.filename_of path = path
  else path = File.parent_dir_of path +:+ "/" +:+ File.filename_of path.
Proof.
  pose proof (join_split "/" path) as Hj.
  pose proof (split_no_separator path) as Hs.
  pose proof (split_not_nil "/" path) as Hn.
  unfold File.parent_dir_of, File.filename_of, but_last.
  destruct (exists_last Hn) as (ini & w & Hl). rewrite Hl in *.
  rewrite List.last_last, removelast_last.
  apply Forall_app in Hs as [_ Hw]. apply Forall_inv in Hw as Hw'.
  split; [exact Hj|]. split; [exact Hw'|].
  destruct ini as [|a ini].
  - simpl in Hj. subst w. rewrite Hw'. auto.
  - rewrite join_snoc in Hj by discriminate.
    assert (Hns : no_separator path = false)
      by (rewrite <- Hj; apply no_separator_app_slash).
    rewrite Hns. symmetry. exact Hj.
Qed.

(** ** More on [File.__init__] and [File.attributes] *)

Lemma is_dir_in_spec (l : list Directory.entry) (filename : string) :
  File.is_dir_in l filename = true <-> filename = "" \/ In (filename, true) l.
Proof.
  unfold File.is_dir_in. rewrite orb_true_iff, String.eqb_eq, existsb_exists.
  split.
  - intros [(x & Hin & Heq)|H]; [|auto]. right.
    apply String.eqb_eq in Heq. subst x.
    apply in_map_iff in Hin as ([n d] & Hn & Hin). simpl in Hn. subst n.
    apply filter_In in Hin as [Hin Hd]. simpl in Hd. subst d. exact Hin.
  - intros [H|H]; [auto|]. left. exists filename. split; [|apply String.eqb_refl].
    apply in_map_iff. exists (filename, true). split; [reflexivity|].
    apply filter_In. auto.
Qed.

Section InitMore.

Context {timestamp : Type} `{E : Env timestamp}.

Implicit Types (cache : File.readdir_cache) (tr : list request).

Lemma init_cached now root path dm tr cache l :
  cache !! File.parent_dir_of path = Some l ->
  File.init now root path dm (State tr cache)
    = File.probe now root path dm (State tr cache).
Proof.
  intros H. unfold File.init, bind. rewrite (populate_cached _ _ _ _ _ H). reflexivity.
Qed.

Lemma init_uncached now root path dm tr cache :
  cache !! File.parent_dir_of path = None ->
  let rq := listing_request root (File.parent_dir_of path) in
  File.init now root path dm (State tr cache) =
    match Directory.contents_of_soup (BeautifulSoup (text (session_send tr rq))) with
    | Ok c => File.probe now root path dm
                (State (tr ++ [rq]) (<[File.parent_dir_of path := c]> cache))
    | Raise e => (Raise e, State (tr ++ [rq]) cache)
    end.
Proof.
  intros H rq. unfold File.init, bind. rewrite (populate_uncached _ _ _ _ H).
  fold rq. destruct (Directory.contents_of_soup _); reflexivity.
Qed.

Lemma contents_loop_prefix (rows : list node) (acc l : list Directory.entry) :
  Directory.contents_loop rows acc = Ok l -> exists rest, l = acc ++ rest.
Proof.
  revert acc. induction rows as [|x rows IH]; intros acc H; simpl in H.
  - injection H as <-. exists []. rewrite app_nil_r. reflexivity.
  - unfold rbind in H.
    destruct (Directory.row_selected x) as [[|]|]; [| |discriminate].
    + destruct (Directory.row_entry x) as [e|]; [|discriminate].
      apply IH in H as [rest ->]. exists (e :: rest).
      rewrite <- app_assoc. reflexivity.
    + apply IH, H.
Qed.

(** X10: a probe that is not answered with 200 does not make [__init__] fail: it
    returns, after the HEAD alone, a handle of size 0 without [mtime], and
    [attributes] of that handle raises [ENOENT]. *)
Theorem failed_probe_is_not_found now root path dm tr cache l :
  cache !! File.parent_dir_of path = Some l ->
  let rq := probe_request root path (File.is_dir_in l (File.filename_of path)) in
  status_code (session_send tr rq) <> 200 ->
  exists f,
    File.init now root path dm (State tr cache) = (Ok f, State (tr ++ [rq]) cache) /\
    File.size f = 0 /\ File.mtime f = None /\
    File.attributes f = Raise (FuseOSError ENOENT).
Proof.
  intros Hl rq Hs. rewrite (init_cached _ _ _ _ _ _ _ Hl).
  subst rq. unfold probe_request in *.
  unfold File.probe, bind, get_obj, lift, session_head, session_request, ret.
  cbn [obj trace]. rewrite Hl. cbn [obj trace].
  apply Z.eqb_neq in Hs. rewrite Hs.
  eexists. split; [reflexivity|].
  unfold File.attributes. cbn [File.size File.mtime File.r]. rewrite Hs. auto.
Qed.

(** X11: [attributes] of a handle whose probe was answered with 200 returns the
    size and, as both [st_atime] and [st_mtime], the [mtime] of the handle; a
    directory has the type bits of a directory, the permissions 777 and two
    links, a file has the type bits of a regular file, the permissions 666
    and no [st_nlink] at all. *)
Theorem attributes_of_found (self : @File.t timestamp) :
  status_code (File.r self) = 200 ->
  exists attrs mode,
    File.attributes self = Ok attrs /\
    attrs !! "st_size" = Some (File.VInt (File.size self)) /\
    attrs !! "st_mtime" = Some (File.VTime (File.mtime self)) /\
    attrs !! "st_atime" = Some (File.VTime (File.mtime self)) /\
    attrs !! "st_mode" = Some (File.VInt mode) /\
    Z.land mode 0xF000 = (if File.is_dir self then File.S_IFDIR else File.S_IFREG) /\
    Z.land mode 0x1ff = (if File.is_dir self then 0x1ff else 0x1b6) /\
    attrs !! "st_nlink" = (if File.is_dir self then Some (File.VInt 2) else None).
Proof.
  intros Hs. unfold File.attributes. rewrite Hs. cbn [Z.eqb Pos.eqb negb].
  destruct (File.is_dir self); eexists; eexists; (split; [reflexivity|]);
    repeat split; reflexivity.
Qed.

(** X12: a probe answered with 200 whose [Content-Length] is not a number, or
    whose [Last-Modified] is not a date of the expected format, makes
    [__init__] raise [ValueError] right after the HEAD. *)
Theorem bad_header_raises_ValueError now root path dm tr cache l :
  cache !! File.parent_dir_of path = Some l ->
  let rq := probe_request root path (File.is_dir_in l (File.filename_of path)) in
  let resp := session_send tr rq in
  status_code resp = 200 ->
  (exists v, header_lookup "Content-Length" (headers resp) = Some v /\
             int_of_str v = None) \/
  (exists s, header_lookup "Last-Modified" (headers resp) = Some s /\
             mktime_strptime s "%a, %d %b %Y %H:%M:%S %Z" = None) ->
  File.init now root path dm (State tr cache)
    = (Raise ValueError, State (tr ++ [rq]) cache).
Proof.
  intros Hl rq resp Hs Hbad. rewrite (init_cached _ _ _ _ _ _ _ Hl).
  subst resp rq. unfold probe_request in *.
  unfold File.probe, bind, get_obj, lift, session_head, session_request, ret.
  cbn [obj trace]. rewrite Hl. cbn [obj trace]. rewrite Hs.
  cbn [Z.eqb Pos.eqb].
  unfold File.size_of_headers, File.mtime_of_headers.
  destruct Hbad as [(v & Hv & Hi)|(s & Hlm & Hp)].
  - rewrite Hv, Hi. reflexivity.
  - rewrite Hlm, Hp.
    destruct (header_lookup "Content-Length" _) as [v|]; [|reflexivity].
    destruct (int_of_str v); reflexivity.
Qed.

(** X13: when the page of the parent directory has a defective row, [__init__]
    raises the exception of that row after the GET of the page alone: no
    probe is sent and nothing is stored in the cache, so the next call
    fetches the page again. *)
Theorem defective_listing_fails_init now root path dm tr cache e :
  cache !! File.parent_dir_of path = None ->
  let rq := listing_request root (File.parent_dir_of path) in
  first_defect (find_all "tr" (BeautifulSoup (text (session_send tr rq)))) = Some e ->
  File.init now root path dm (State tr cache) = (Raise e, State (tr ++ [rq]) cache).
Proof.
  intros Hn rq Hd. rewrite (init_uncached _ _ _ _ _ _ Hn). fold rq.
  unfold Directory.contents_of_soup.
  rewrite (contents_loop_defect _ _ _ Hd). reflexivity.
Qed.

(** X14: the handle [__init__] returns is a directory exactly when the file name
    is empty or the cached listing of the parent has it as a directory, and
    its URL is root, separator and path, with one more separator for a
    directory. *)
Theorem is_dir_from_cached_listing now root path dm (st : state File.readdir_cache) f st' :
  File.init now root path dm st = (Ok f, st') ->
  exists l,
    obj st' !! File.parent_dir_of path = Some l /\
    (File.is_dir f = true <->
     File.filename_of path = "" \/ In (File.filename_of path, true) l) /\
    File.url f = root +:+ "/" +:+ path +:+ (if File.is_dir f then "/" else "").
Proof.
  intros Hinit.
  apply init_ok in Hinit as ([tr1 cache1] & _ & Hp).
  apply probe_ok in Hp as (l & Hl & Hd & Hu & _ & Hobj & _).
  exists l. rewrite Hobj. split; [exact Hl|]. split.
  - rewrite Hd. apply is_dir_in_spec.
  - rewrite Hu, Hd. reflexivity.
Qed.

(** X15: the listings [__init__] stores start with the two dot entries: a cache
    that has this property keeps it through any call, and then the file
    names [.] and [..] are directories. *)
Theorem dot_entries_are_directories now root path dm (st : state File.readdir_cache) :
  dotted (obj st) ->
  dotted (obj (snd (File.init now root path dm st))) /\
  (forall f, fst (File.init now root path dm st) = Ok f ->
             File.filename_of path = "." \/ File.filename_of path = ".." ->
             File.is_dir f = true).
Proof.
  intros Hdot.
  assert (Hdot' : dotted (obj (snd (File.init now root path dm st)))).
  { destruct st as [tr cache]. simpl in Hdot.
    destruct (cache !! File.parent_dir_of path) as [l|] eqn:Hl.
    - rewrite (init_cached _ _ _ _ _ _ _ Hl).
      destruct (probe_state now root path dm tr cache) as [-> _]. exact Hdot.
    - rewrite (init_uncached _ _ _ _ _ _ Hl).
      destruct (Directory.contents_of_soup _) as [c|e] eqn:Hc; [|exact Hdot].
      destruct (probe_state now root path dm
                  (tr ++ [listing_request root (File.parent_dir_of path)])
                  (<[File.parent_dir_of path := c]> cache)) as [-> _].
      intros p l'. rewrite lookup_insert. case_decide as Hp.
      + intros [= <-]. unfold Directory.contents_of_soup in Hc.
        apply contents_loop_prefix in Hc as [rest ->]. exists rest. reflexivity.
      + apply Hdot. }
  split; [exact Hdot'|].
  intros f Hf Hname.
  destruct (File.init now root path dm st) as [res st'] eqn:Hinit.
  simpl in Hf, Hdot'. subst res.
  apply init_ok in Hinit as ([tr1 cache1] & _ & Hp).
  apply probe_ok in Hp as (l & Hl & Hd & _ & _ & Hobj & _).
  rewrite Hd. apply is_dir_in_spec. right.
  rewrite <- Hobj in Hl. destruct (Hdot' _ _ Hl) as [rest ->].
  destruct Hname as [-> | ->]; simpl; auto.
Qed.

(** X16: the root and every path that ends with a separator are directories
    whatever the listings say: such a path has the empty file name, the path
    without its last separator as parent, and is probed at the URL with one
    more separator. *)
Theorem trailing_separator_is_directory now root p dm (st : state File.readdir_cache) f st' :
  File.filename_of (p +:+ "/") = "" /\
  File.parent_dir_of (p +:+ "/") = p /\
  File.filename_of "" = "" /\
  (File.init now root (p +:+ "/") dm st = (Ok f, st') ->
   File.is_dir f = true /\ File.url f = root +:+ "/" +:+ (p +:+ "/") +:+ "/").
Proof.
  assert (Hf : File.filename_of (p +:+ "/") = "").
  { unfold File.filename_of. rewrite split_app_slash. apply List.last_last. }
  split; [exact Hf|]. split.
  - unfold File.parent_dir_of, but_last. rewrite split_app_slash, removelast_last.
    apply join_split.
  - split; [reflexivity|]. intros Hinit.
    apply init_ok in Hinit as ([tr1 cache1] & _ & Hp).
    apply probe_ok in Hp as (l & Hl & Hd & Hu & _).
    assert (Hdir : File.is_dir f = true).
    { rewrite Hd. apply is_dir_in_spec. left. exact Hf. }
    split; [exact Hdir|]. rewrite Hu. unfold probe_request. simpl.
    rewrite <- Hd, Hdir. reflexivity.
Qed.

(** X17: a page without table rows, whatever the status of its response, is an
    empty directory: the call stores the listing of the two dot entries for
    it, and a handle it returns is a directory only for the file names
    [""], [.] and [..]. *)
Theorem page_without_rows_is_empty_directory now root path dm tr cache :
  cache !! File.parent_dir_of path = None ->
  let rq := listing_request root (File.parent_dir_of path) in
  find_all "tr" (BeautifulSoup (text (session_send tr rq))) = [] ->
  obj (snd (File.init now root path dm (State tr cache))) !! File.parent_dir_of path
    = Some [(".", true); ("..", true)] /\
  (forall f, fst (File.init now root path dm (State tr cache)) = Ok f ->
             File.is_dir f = true <->
             In (File.filename_of path) [""; "."; ".."]).
Proof.
  intros Hn rq Hrows. rewrite (init_uncached _ _ _ _ _ _ Hn). fold rq.
  unfold Directory.contents_of_soup. rewrite Hrows. cbn [Directory.contents_loop].
  split.
  - rewrite (proj1 (probe_state now root path dm _ _)). apply lookup_insert_eq.
  - intros f Hf.
    destruct (File.probe now root path dm _) as [res st'] eqn:Hp. simpl in Hf. subst res.
    apply probe_ok in Hp as (l & Hl & Hd & _).
    rewrite lookup_insert_eq in Hl. injection Hl as <-.
    rewrite Hd, is_dir_in_spec. simpl.
    split.
    + intros [->|[H|[H|[]]]]; [auto| |]; injection H as <-; auto.
    + intros [<-|[<-|[<-|[]]]]; auto.
Qed.

(** X18: a [Last-Modified] header of a probe answered with 200 decides [mtime],
    for files and directories, with and without [dirmtime]: it is the date of
    the header, and the probe is the last request of the call. *)
Theorem last_modified_header_decides_mtime
    now root path dm (st : state File.readdir_cache) f st' (s : string) :
  File.init now root path dm st = (Ok f, st') ->
  status_code (File.r f) = 200 ->
  header_lookup "Last-Modified" (headers (File.r f)) = Some s ->
  exists tm,
    mktime_strptime s "%a, %d %b %Y %H:%M:%S %Z" = Some tm /\
    File.mtime f = Some tm /\
    exists tr, trace st' = tr ++ [Request HEAD (File.url f) []].
Proof.
  intros Hinit Hs Hlm.
  apply init_ok in Hinit as ([tr1 cache1] & _ & Hp).
  apply probe_ok in Hp as (l & Hl & Hd & Hu & Hr & _ & H).
  rewrite Hs in H. simpl in H. destruct H as [_ Hm].
  unfold File.mtime_of_headers in Hm. rewrite Hlm in Hm.
  destruct (mktime_strptime s _) as [tm|]; [|contradiction].
  destruct Hm as [Hm Htr]. exists tm. split; [reflexivity|]. split; [exact Hm|].
  exists tr1. rewrite Htr, Hu. reflexivity.
Qed.

End InitMore.

(** *** The same on the concrete sites *)

Lemma failed_probe_is_not_found_witness :
  exists f,
    File.init (E := Fixture.env) Fixture.now "http://host" "missing.txt" false
      (State [] {[ "" := Fixture.root_listing ]})
      = (Ok f, State [probe_request "http://host" "missing.txt" false]
                     {[ "" := Fixture.root_listing ]}) /\
    File.attributes f = Raise (FuseOSError ENOENT).
Proof.
  destruct (failed_probe_is_not_found (E := Fixture.env) Fixture.now "http://host"
              "missing.txt" false [] {[ "" := Fixture.root_listing ]}
              Fixture.root_listing) as (f & H1 & _ & _ & H4);
    [reflexivity | vm_compute; discriminate |].
  exists f. split; [exact H1 | exact H4].
Defined.

Lemma attributes_of_found_witness :
  exists attrs mode,
    File.attributes Fixture.docs = Ok attrs /\
    attrs !! "st_mode" = Some (File.VInt mode) /\
    Z.land mode 0xF000 = File.S_IFDIR /\
    attrs !! "st_nlink" = Some (File.VInt 2).
Proof.
  destruct (attributes_of_found Fixture.docs eq_refl)
    as (attrs & mode & H1 & _ & _ & _ & H5 & H6 & _ & H8).
  exists attrs, mode. auto.
Defined.

Lemma bad_header_raises_ValueError_witness :
  File.init (E := Odd.env) Fixture.now "http://host" "odd.txt" false
    (State [] {[ "" := Fixture.root_listing ]})
    = (Raise ValueError,
       State [probe_request "http://host" "odd.txt" false]
             {[ "" := Fixture.root_listing ]}) /\
  File.init (E := Odd.env) Fixture.now "http://host" "stale.txt" false
    (State [] {[ "" := Fixture.root_listing ]})
    = (Raise ValueError,
       State [probe_request "http://host" "stale.txt" false]
             {[ "" := Fixture.root_listing ]}).
Proof.
  split.
  - apply (bad_header_raises_ValueError (E := Odd.env) Fixture.now "http://host"
             "odd.txt" false [] {[ "" := Fixture.root_listing ]} Fixture.root_listing);
      [reflexivity | reflexivity |].
    left. exists "12 bytes". split; reflexivity.
  - apply (bad_header_raises_ValueError (E := Odd.env) Fixture.now "http://host"
             "stale.txt" false [] {[ "" := Fixture.root_listing ]} Fixture.root_listing);
      [reflexivity | reflexivity |].
    right. exists "yesterday". split; reflexivity.
Defined.

Lemma defective_listing_fails_init_witness :
  File.init (E := Fixture.env) Fixture.now "http://host" "noicon/x" false (State [] ∅)
    = (Raise TypeError, State [listing_request "http://host" "noicon"] ∅).
Proof.
  apply (defective_listing_fails_init (E := Fixture.env) Fixture.now "http://host"
           "noicon/x" false [] ∅ TypeError); reflexivity.
Defined.

Lemma is_dir_from_cached_listing_witness :
  File.is_dir Fixture.docs = true <->
  File.filename_of "docs" = "" \/ In (File.filename_of "docs", true) Fixture.root_listing.
Proof.
  destruct (is_dir_from_cached_listing (E := Fixture.env) Fixture.now "http://host" "docs"
              true (Fixture.fresh ∅) Fixture.docs
              (State [listing_request "http://host" "";
                      probe_request "http://host" "docs" true;
                      listing_request "http://host" ""]
                     {[ "" := Fixture.root_listing ]}))
    as (l & Hl & Hiff & _); [vm_compute; reflexivity|].
  change (Some Fixture.root_listing = Some l) in Hl. injection Hl as <-.
  exact Hiff.
Defined.

Lemma dot_entries_are_directories_witness :
  File.is_dir (File.Build "http://host" "docs/.." false true "http://host/docs/../"
                 (Response 404 [] "" []) 0 (None : option Z)) = true.
Proof.
  destruct (dot_entries_are_directories (E := Fixture.env) Fixture.now "http://host"
              "docs/.." false (Fixture.fresh ∅)) as [_ H].
  - intros p l Hl. unfold Fixture.fresh in Hl. cbn [obj] in Hl.
    rewrite lookup_empty in Hl. discriminate.
  - apply H; [vm_compute; reflexivity | right; reflexivity].
Defined.

Lemma trailing_separator_is_directory_witness :
  File.parent_dir_of "docs/" = "docs" /\
  File.url (File.Build "http://host" "docs/" false true "http://host/docs//"
              (Response 404 [] "" []) 0 (None : option Z))
    = "http://host" +:+ "/" +:+ ("docs" +:+ "/") +:+ "/".
Proof.
  destruct (trailing_separator_is_directory (E := Fixture.env) Fixture.now "http://host"
              "docs" false (Fixture.fresh ∅)
              (File.Build "http://host" "docs/" false true "http://host/docs//"
                 (Response 404 [] "" []) 0 None)
              (State [listing_request "http://host" "docs";
                      probe_request "http://host" "docs/" true]
                     {[ "docs" := [(".", true); ("..", true)] ]}))
    as (_ & H2 & _ & H4).
  split; [exact H2|].
  apply H4. vm_compute. reflexivity.
Defined.

Lemma page_without_rows_is_empty_directory_witness :
  status_code (session_send (Env := Fixture.env) []
                 (listing_request "http://host" "nope")) = 404 /\
  obj (snd (File.init (E := Fixture.env) Fixture.now "http://host" "nope/file.txt" false
              (State [] ∅))) !! "nope"
    = Some [(".", true); ("..", true)].
Proof.
  split; [reflexivity|].
  destruct (page_without_rows_is_empty_directory (E := Fixture.env) Fixture.now
              "http://host" "nope/file.txt" false [] ∅) as [H _];
    [reflexivity | reflexivity |].
  exact H.
Defined.

Lemma last_modified_header_decides_mtime_witness :
  exists tm,
    mktime_strptime (Env := Odd.env) "Thu, 01 Jun 2023 10:00:00 GMT"
      "%a, %d %b %Y %H:%M:%S %Z" = Some tm /\
    Some (1685613600 : Z) = Some tm.
Proof.
  destruct (last_modified_header_decides_mtime (E := Odd.env) Fixture.now "http://host"
              "dated.txt" true (State [] {[ "" := Fixture.root_listing ]})
              (File.Build "http://host" "dated.txt" true false "http://host/dated.txt"
                 (Response 200 [("Content-Length", "7");
                                ("Last-Modified", "Thu, 01 Jun 2023 10:00:00 GMT")] "" [])
                 7 (Some 1685613600))
              (State [probe_request "http://host" "dated.txt" false]
                     {[ "" := Fixture.root_listing ]})
              "Thu, 01 Jun 2023 10:00:00 GMT")
    as (tm & H1 & H2 & _);
    [vm_compute; reflexivity | reflexivity | reflexivity |].
  exists tm. split; [exact H1 | exact H2].
Defined.
